(** * NAICS lookup-table generators: a shallow embedding

    The repository holds three Python scripts (clean_naics.py,
    extract_naics.py, generate_naics.py).  Each one reads a worksheet with
    pandas, keeps the rows of an allow-list of sectors, and writes a
    TypeScript module made of three literal tables and four helper
    functions.

    Python [str] values are modelled by [string]; a character is a code
    point below 256.  A worksheet cell is [option string]: [None] is the
    NaN pandas stores for a missing or empty cell, [Some s] carries the
    text that [astype(str)] yields for the cell. *)

From Stdlib Require Import Ascii String ZArith Sorted.
From stdpp Require Import gmap strings list fin_maps pretty.

Local Open Scope string_scope.
Local Open Scope list_scope.

(** ** Python string primitives *)

Module Py.

(** [str.isspace] on one character, which is also what the [\s] class of
    [re] matches on [str] patterns: U+0009..U+000D, U+001C..U+001F,
    U+0020, U+0085 and U+00A0. *)
Definition is_space (c : ascii) : bool :=
  let n := N_of_ascii c in
  ((9 <=? n) && (n <=? 13) || (28 <=? n) && (n <=? 32)
   || (n =? 133) || (n =? 160))%N.

Fixpoint all_space (s : string) : bool :=
  match s with
  | EmptyString => true
  | String c s' => is_space c && all_space s'
  end.

Fixpoint lstrip (s : string) : string :=
  match s with
  | EmptyString => EmptyString
  | String c s' => if is_space c then lstrip s' else s
  end.

Fixpoint rstrip (s : string) : string :=
  match s with
  | EmptyString => EmptyString
  | String c s' =>
      match rstrip s' with
      | EmptyString => if is_space c then EmptyString else String c EmptyString
      | r => String c r
      end
  end.

(** [s.strip()] *)
Definition strip (s : string) : string := rstrip (lstrip s).

(** [s[:n]] *)
Definition take (n : nat) (s : string) : string := substring 0 n s.

(** [len(s)] *)
Definition len (s : string) : nat := String.length s.

(** [s.replace(old, new)] for a non-empty [old]: every occurrence, found
    from left to right without overlap.  [skip] counts the characters of
    the occurrence under replacement that are still to be passed. *)
Fixpoint replace_from (skip : nat) (old new s : string) : string :=
  match s with
  | EmptyString => EmptyString
  | String c s' =>
      match skip with
      | S k => replace_from k old new s'
      | O =>
          if String.prefix old s
          then new +:+ replace_from (String.length old - 1) old new s'
          else String c (replace_from 0 old new s')
      end
  end.

Definition replace (old new s : string) : string := replace_from 0 old new s.

(** The pattern [T\s*$] of clean_title.

    [$] (no MULTILINE flag) holds at the end of the text and just before
    a newline that ends the text. *)
Definition at_dollar (rest : string) : bool :=
  match rest with
  | EmptyString => true
  | String c EmptyString => Ascii.eqb c "010"
  | _ => false
  end.

(** [\s*$] tried at [rest]: the greedy star takes every whitespace
    character it can and gives them back one at a time until [$] holds.
    The result is the number of characters the match consumes. *)
Fixpoint match_spaces_dollar (rest : string) : option nat :=
  match rest with
  | EmptyString => Some 0
  | String c rest' =>
      if is_space c then
        match match_spaces_dollar rest' with
        | Some n => Some (S n)
        | None => if at_dollar rest then Some 0 else None
        end
      else if at_dollar rest then Some 0 else None
  end.

(** [T\s*$] tried at the head of [s]. *)
Definition match_marker (s : string) : option nat :=
  match s with
  | String c rest =>
      if Ascii.eqb c "T" then S <$> match_spaces_dollar rest else None
  | EmptyString => None
  end.

(** [re.sub(r'T\s*$', '', s)]: scan from the left; where the pattern
    matches, drop the matched characters and resume after them; elsewhere
    copy the character.  (The pattern never matches the empty text.) *)
Fixpoint sub_marker_from (skip : nat) (s : string) : string :=
  match s with
  | EmptyString => EmptyString
  | String c s' =>
      match skip with
      | S k => sub_marker_from k s'
      | O =>
          match match_marker s with
          | Some (S k) => sub_marker_from k s'
          | _ => String c (sub_marker_from 0 s')
          end
      end
  end.

Definition sub_marker (s : string) : string := sub_marker_from 0 s.

(** [list.sort(key=...)]: the sort is stable and compares keys with [<]
    only.  Any stable sort yields the same list; insertion keeps an
    element in front of the later elements whose key is not smaller. *)
Section Sort.
Context {A : Type} (key : A -> string).

Fixpoint insert_sorted (x : A) (l : list A) : list A :=
  match l with
  | [] => [x]
  | y :: l' =>
      if String.ltb (key y) (key x) then y :: insert_sorted x l'
      else x :: y :: l'
  end.

Fixpoint sort (l : list A) : list A :=
  match l with
  | [] => []
  | x :: l' => insert_sorted x (sort l')
  end.
End Sort.

End Py.

(** ** clean_naics.py: clean_title *)

Definition clean_title (title : string) : string :=
  Py.strip (Py.sub_marker title).

(** ** The emitted record and the pandas column operations *)

(** One entry of an emitted table, as the [NAICSCode] interface of the
    generated module declares it.  The fields are the texts and the number
    the scripts interpolate into the literal
    [{ code: ..., title: ..., level: ..., parent: ... }]. *)
Record NAICSCode := mkNAICSCode {
  code : string;
  title : string;
  level : Z;
  parent : string
}.

(** A worksheet cell: [None] is NaN. *)
Definition cell := option string.

Module Pd.

(** [str(v)] and [Series.astype(str)]: NaN becomes the text [nan]. *)
Definition str (c : cell) : string := default "nan" c.
Definition astype_str (c : cell) : cell := Some (str c).

(** [Series.isna], the test behind [dropna]. *)
Definition isna (c : cell) : bool := bool_decide (c = None).

(** [Series.str.len()] and [Series.str[:n]] give NaN on NaN. *)
Definition str_len (c : cell) : option nat := Py.len <$> c.
Definition str_take (n : nat) (c : cell) : cell := Py.take n <$> c.
Definition str_replace (old new : string) (c : cell) : cell :=
  Py.replace old new <$> c.

(** [Series.isin(values)]: NaN is in no list of strings. *)
Definition isin (c : cell) (values : list string) : bool :=
  match c with
  | Some s => bool_decide (s ∈ values)
  | None => false
  end.

End Pd.

Definition double_quote : string := String "034" EmptyString.
Definition single_quote : string := String "039" EmptyString.
Definition backslash : string := String "092" EmptyString.

(** The two chained [replace] calls applied to every title before it is
    written: a backslash is put in front of each double quote, then in
    front of each single quote. *)
Definition escape (t : string) : string :=
  Py.replace single_quote (backslash +:+ single_quote)
    (Py.replace double_quote (backslash +:+ double_quote) t).

(** The sheet [2022 NAICS Structure], read by clean_naics.py and
    extract_naics.py with the same four statements. *)
Module Sheet2022.

Record Row := mkRow {
  Change_Indicator : cell;
  NAICS_Code : cell;
  NAICS_Title : cell
}.

Abbreviation DataFrame := (list Row).

(** [df.dropna(subset=['NAICS_Code'])] *)
Definition dropna (df : DataFrame) : DataFrame :=
  filter (λ row, ¬ Pd.isna (NAICS_Code row)) df.

(** [dropna], then [astype(str)] on the code and title columns. *)
Definition load (sheet : DataFrame) : DataFrame :=
  (λ row, mkRow (Change_Indicator row)
                (Pd.astype_str (NAICS_Code row))
                (Pd.astype_str (NAICS_Title row))) <$> dropna sheet.

Definition eligible_sectors : list string :=
  ["11"; "21"; "22"; "23"; "31"; "32"; "33"; "48"; "56"].

Definition manufacturing : list string := ["31"; "32"; "33"].

(** [df[df.NAICS_Code.str.len() == 2]] restricted to the allow-list. *)
Definition sectors_raw (df : DataFrame) : DataFrame :=
  filter (λ row, Pd.isin (NAICS_Code row) eligible_sectors)
    (filter (λ row, Pd.str_len (NAICS_Code row) = Some 2%nat) df).

(** Rows with a code of [n] characters whose first two are allow-listed. *)
Definition rows_of_length (n : nat) (df : DataFrame) : DataFrame :=
  filter (λ row, Pd.isin (Pd.str_take 2 (NAICS_Code row)) eligible_sectors)
    (filter (λ row, Pd.str_len (NAICS_Code row) = Some n) df).

Definition categories := rows_of_length 3.
Definition facility_types := rows_of_length 6.

(** The parent of a category: [code[:2]], with 31, 32 and 33 mapped to
    the combined code. *)
Definition category_parent (code : string) : string :=
  let parent := Py.take 2 code in
  if decide (parent ∈ manufacturing) then "31-33" else parent.

End Sheet2022.

(** The three tables a script writes. *)
Record Tables := mkTables {
  FACILITY_SECTORS : list NAICSCode;
  FACILITY_CATEGORIES : list NAICSCode;
  FACILITY_TYPES : list NAICSCode
}.

(** ** extract_naics.py *)

Module extract_naics.
Import Sheet2022.

(** One turn of the loop over [sectors_raw]; the state is
    [(sectors_list, manufacturing_found)]. *)
Definition sectors_step (st : list NAICSCode * bool) (row : Row)
  : list NAICSCode * bool :=
  let code := Pd.str (NAICS_Code row) in
  let title := Pd.str (NAICS_Title row) in
  if decide (code ∈ manufacturing) then
    if negb st.2
    then (st.1 ++ [mkNAICSCode "31-33" "Manufacturing" 2 ""], true)
    else st
  else (st.1 ++ [mkNAICSCode code title 2 ""], st.2).

Definition sectors_list (df : DataFrame) : list NAICSCode :=
  (foldl sectors_step ([], false) (sectors_raw df)).1.

Definition emit_sectors (df : DataFrame) : list NAICSCode :=
  (λ sector, mkNAICSCode (code sector) (escape (title sector)) 2 "")
    <$> sectors_list df.

Definition emit_categories (df : DataFrame) : list NAICSCode :=
  (λ row, let code := Pd.str (NAICS_Code row) in
          mkNAICSCode code (escape (Pd.str (NAICS_Title row))) 3
                      (category_parent code)) <$> categories df.

Definition emit_facility_types (df : DataFrame) : list NAICSCode :=
  (λ row, let code := Pd.str (NAICS_Code row) in
          mkNAICSCode code (escape (Pd.str (NAICS_Title row))) 6
                      (Py.take 3 code)) <$> facility_types df.

Definition run (sheet : DataFrame) : Tables :=
  let df := load sheet in
  mkTables (emit_sectors df) (emit_categories df) (emit_facility_types df).

End extract_naics.

(** ** clean_naics.py *)

Module clean_naics.
Import Sheet2022.

Definition sectors_step (st : list NAICSCode * bool) (row : Row)
  : list NAICSCode * bool :=
  let code := Pd.str (NAICS_Code row) in
  let title := clean_title (Pd.str (NAICS_Title row)) in
  if decide (code ∈ manufacturing) then
    if negb st.2
    then (st.1 ++ [mkNAICSCode "31-33" "Manufacturing" 2 ""], true)
    else st
  else (st.1 ++ [mkNAICSCode code title 2 ""], st.2).

(** The list the loop builds, before [sectors_list.sort]. *)
Definition sectors_unsorted (df : DataFrame) : list NAICSCode :=
  (foldl sectors_step ([], false) (sectors_raw df)).1.

Definition sectors_list (df : DataFrame) : list NAICSCode :=
  Py.sort title (sectors_unsorted df).

Definition emit_sectors (df : DataFrame) : list NAICSCode :=
  (λ sector, mkNAICSCode (code sector) (escape (title sector)) 2 "")
    <$> sectors_list df.

(** The dictionaries of [categories_list] and [facility_types_list] have
    the keys code, title and parent; the level is written at emission. *)
Record Entry := mkEntry {
  entry_code : string;
  entry_title : string;
  entry_parent : string
}.

Definition categories_list (df : DataFrame) : list Entry :=
  Py.sort entry_title
    ((λ row, let code := Pd.str (NAICS_Code row) in
             mkEntry code (escape (clean_title (Pd.str (NAICS_Title row))))
                     (category_parent code)) <$> categories df).

Definition facility_types_list (df : DataFrame) : list Entry :=
  Py.sort entry_title
    ((λ row, let code := Pd.str (NAICS_Code row) in
             mkEntry code (escape (clean_title (Pd.str (NAICS_Title row))))
                     (Py.take 3 code)) <$> facility_types df).

Definition emit_categories (df : DataFrame) : list NAICSCode :=
  (λ e, mkNAICSCode (entry_code e) (entry_title e) 3 (entry_parent e))
    <$> categories_list df.

Definition emit_facility_types (df : DataFrame) : list NAICSCode :=
  (λ e, mkNAICSCode (entry_code e) (entry_title e) 6 (entry_parent e))
    <$> facility_types_list df.

Definition run (sheet : DataFrame) : Tables :=
  let df := load sheet in
  mkTables (emit_sectors df) (emit_categories df) (emit_facility_types df).

End clean_naics.

(** ** generate_naics.py *)

Module generate_naics.

(** The sheet [naics-scian-2022-structure-v1-e]; only the three columns
    the script reads are kept. *)
Record Row := mkRow {
  Level : option Z;
  Code : cell;
  Class_title : cell
}.

Abbreviation DataFrame := (list Row).

Definition set_Code (f : cell -> cell) (row : Row) : Row :=
  mkRow (Level row) (f (Code row)) (Class_title row).

(** [df.dropna(subset=['Code'])] *)
Definition dropna (df : DataFrame) : DataFrame :=
  filter (λ row, ¬ Pd.isna (Code row)) df.

(** The three statements in the order of the script: [astype(str)] on the
    code column, then [dropna], then the removal of the text [.0]. *)
Definition load (sheet : DataFrame) : DataFrame :=
  set_Code (Pd.str_replace ".0" "") <$> dropna (set_Code Pd.astype_str <$> sheet).

Definition eligible_sectors : list string :=
  ["11"; "21"; "22"; "23"; "31"; "32"; "33"; "48"; "56"].

(** [df[df['Level'] == n]] *)
Definition of_level (n : Z) (df : DataFrame) : DataFrame :=
  filter (λ row, Level row = Some n) df.

Definition sectors_df := of_level 2.
Definition subsectors_df := of_level 3.
Definition industries_df := of_level 6.

(** One turn of the loop that fills the dictionary [sector_groups]. *)
Definition group_step (sector_groups : gmap string (list string)) (row : Row)
  : gmap string (list string) :=
  let code := Py.take 2 (Pd.str (Code row)) in
  if decide (code ∈ eligible_sectors) then
    let groups :=
      if decide (sector_groups !! code = None)
      then <[code := []]> sector_groups
      else sector_groups in
    alter (λ titles, titles ++ [Pd.str (Class_title row)]) code groups
  else sector_groups.

Definition sector_groups (df : DataFrame) : gmap string (list string) :=
  foldl group_step ∅ (sectors_df df).

(** The chain of comparisons that picks the title of a sector.  The last
    branch reads [titles[0]]; no allow-listed code reaches it. *)
Definition sector_title (code : string) (titles : list string) : string :=
  if decide (code = "11") then "Agriculture, forestry, fishing and hunting"
  else if decide (code = "21") then "Mining, quarrying, and oil and gas extraction"
  else if decide (code = "22") then "Utilities"
  else if decide (code = "23") then "Construction"
  else if decide (code ∈ ["31"; "32"; "33"]) then "Manufacturing"
  else if decide (code = "48") then "Transportation and warehousing"
  else if decide (code = "56")
  then "Administrative and support, waste management and remediation services"
  else default "" (head titles).

(** The loop over [eligible_sectors] that builds [consolidated_sectors]. *)
Definition consolidated_sectors (df : DataFrame) : list (string * string) :=
  omap (λ code, (λ titles, (code, sector_title code titles))
                  <$> sector_groups df !! code)
       eligible_sectors.

Definition emit_sectors (df : DataFrame) : list NAICSCode :=
  (λ '(code, title), mkNAICSCode code (escape title) 2 "")
    <$> consolidated_sectors df.

(** The guard of both emission loops: [len(code) >= 2] and
    [code[:2] in eligible_sectors]. *)
Definition eligible (code : string) : bool :=
  bool_decide (2 <= Py.len code)%nat
  && bool_decide (Py.take 2 code ∈ eligible_sectors).

Definition emit_row (lvl : Z) (n : nat) (row : Row) : option NAICSCode :=
  let code := Pd.str (Code row) in
  if eligible code
  then Some (mkNAICSCode code (escape (Pd.str (Class_title row))) lvl
                         (Py.take n code))
  else None.

Definition emit_categories (df : DataFrame) : list NAICSCode :=
  omap (emit_row 3 2) (subsectors_df df).

Definition emit_facility_types (df : DataFrame) : list NAICSCode :=
  omap (emit_row 6 3) (industries_df df).

Definition run (sheet : DataFrame) : Tables :=
  let df := load sheet in
  mkTables (emit_sectors df) (emit_categories df) (emit_facility_types df).

End generate_naics.

(** ** The helper functions of the generated module

    The helpers read the three module-level arrays.  A call is a function
    of the store holding the arrays; it completes normally with a value or
    abruptly with a thrown error, and hands the store back. *)

Module TS.

Inductive completion (A : Type) : Type :=
  | Returns (value : A)
  | Throws (message : string).
Arguments Returns {A} value.
Arguments Throws {A} message.

Definition JS (A : Type) : Type := Tables -> completion A * Tables.

Definition ret {A} (a : A) : JS A := λ tb, (Returns a, tb).
Definition throw {A} (message : string) : JS A := λ tb, (Throws message, tb).
Definition bind {A B} (m : JS A) (k : A -> JS B) : JS B :=
  λ tb, match m tb with
        | (Returns a, tb') => k a tb'
        | (Throws message, tb') => (Throws message, tb')
        end.
Definition read {A} (table : Tables -> A) : JS A := λ tb, (Returns (table tb), tb).

Notation "x <- m ;; k" := (bind m (λ x, k))
  (at level 100, m at next level, right associativity).

(** A value that is an object or [undefined]; [Array.prototype.find]
    yields the first element that passes the test, or [undefined]. *)
Definition find (test : NAICSCode -> bool) (array : list NAICSCode)
  : option NAICSCode := List.find test array.

(** Truthiness: an object is truthy, [undefined] is falsy. *)
Definition truthy (x : option NAICSCode) : bool :=
  match x with Some _ => true | None => false end.

(** [!x] *)
Definition not_ (x : option NAICSCode) : bool := negb (truthy x).

(** [x.field]: a TypeError when [x] is [undefined]. *)
Definition member {A} (x : option NAICSCode) (field : NAICSCode -> A) : JS A :=
  match x with
  | Some object => ret (field object)
  | None => throw "TypeError: Cannot read properties of undefined"
  end.

(** [x?.field]: [undefined] when [x] is [undefined]. *)
Definition optional_member (x : option NAICSCode) (field : NAICSCode -> string)
  : option string := field <$> x.

(** [a === b] for a string and a value that is a string or [undefined]. *)
Definition strict_eq (a : string) (b : option string) : bool :=
  bool_decide (Some a = b).

(** A template-literal hole: [undefined] is written as that word. *)
Definition interpolate (x : option string) : string := default "undefined" x.

Definition generateNAICSCode (sectorCode categoryCode typeCode : string)
  : JS string :=
  sectors <- read FACILITY_SECTORS;;
  categories <- read FACILITY_CATEGORIES;;
  types <- read FACILITY_TYPES;;
  let sector := find (λ s, strict_eq (code s) (Some sectorCode)) sectors in
  let category :=
    find (λ c, strict_eq (code c) (Some categoryCode)
               && strict_eq (parent c) (Some sectorCode)) categories in
  let type :=
    find (λ t, strict_eq (code t) (Some typeCode)
               && strict_eq (parent t) (Some categoryCode)) types in
  if not_ sector || not_ category || not_ type
  then throw "Invalid NAICS code combination"
  else ret typeCode.

Definition getNAICSDescription (naicsCode : string) : JS string :=
  sectors <- read FACILITY_SECTORS;;
  categories <- read FACILITY_CATEGORIES;;
  types <- read FACILITY_TYPES;;
  let type := find (λ t, strict_eq (code t) (Some naicsCode)) types in
  if truthy type then
    type_parent <- member type parent;;
    let category := find (λ c, strict_eq (code c) (Some type_parent)) categories in
    let sector :=
      find (λ s, strict_eq (code s) (optional_member category parent)) sectors in
    type_title <- member type title;;
    ret (interpolate (optional_member sector title) +:+ " > "
         +:+ interpolate (optional_member category title) +:+ " > "
         +:+ type_title)
  else ret "Unknown NAICS code".

(** [array.filter(test)] builds a new array. *)
Definition filter_ (test : NAICSCode -> bool) (array : list NAICSCode)
  : list NAICSCode := List.filter test array.

(** The two lookups as extract_naics.py and generate_naics.py write
    them. *)
Module Plain.

Definition getFacilityCategoriesBySector (sectorCode : string)
  : JS (list NAICSCode) :=
  categories <- read FACILITY_CATEGORIES;;
  ret (filter_ (λ category, strict_eq (parent category) (Some sectorCode))
         categories).

Definition getFacilityTypesByCategory (categoryCode : string)
  : JS (list NAICSCode) :=
  types <- read FACILITY_TYPES;;
  ret (filter_ (λ type, strict_eq (parent type) (Some categoryCode)) types).

End Plain.

(** The two lookups as clean_naics.py writes them: the filtered copy is
    sorted with [localeCompare].  The collation of the host is a
    parameter. *)
Module Sorted.
Section Collation.
Variable localeCompare : string -> string -> Z.

(** [array.sort(compare)], stable: an element stays in front of the
    later elements it does not compare greater than. *)
Fixpoint insert_by (compare : NAICSCode -> NAICSCode -> Z)
    (x : NAICSCode) (l : list NAICSCode) : list NAICSCode :=
  match l with
  | [] => [x]
  | y :: l' =>
      if (compare y x <? 0)%Z then y :: insert_by compare x l'
      else x :: y :: l'
  end.

Definition sort_ (compare : NAICSCode -> NAICSCode -> Z)
    (array : list NAICSCode) : list NAICSCode :=
  foldr (insert_by compare) [] array.

Definition by_title (a b : NAICSCode) : Z :=
  localeCompare (title a) (title b).

Definition getFacilityCategoriesBySector (sectorCode : string)
  : JS (list NAICSCode) :=
  categories <- read FACILITY_CATEGORIES;;
  ret (sort_ by_title
         (filter_ (λ category, strict_eq (parent category) (Some sectorCode))
            categories)).

Definition getFacilityTypesByCategory (categoryCode : string)
  : JS (list NAICSCode) :=
  types <- read FACILITY_TYPES;;
  ret (sort_ by_title
         (filter_ (λ type, strict_eq (parent type) (Some categoryCode))
            types)).
End Collation.
End Sorted.

End TS.

(** ** Vocabulary of the statements *)

(** The text has the trailing marker: a [T] with nothing but whitespace
    between it and the end. *)
Fixpoint ends_with_marker (s : string) : bool :=
  match s with
  | EmptyString => false
  | String c s' => Ascii.eqb c "T" && Py.all_space s' || ends_with_marker s'
  end.

Definition starts_with_space (s : string) : bool :=
  match s with
  | EmptyString => false
  | String c _ => Py.is_space c
  end.

Fixpoint ends_with_space (s : string) : bool :=
  match s with
  | EmptyString => false
  | String c EmptyString => Py.is_space c
  | String _ s' => ends_with_space s'
  end.

(** The three checks of the code resolver, read on the tables. *)
Definition valid_combination (tb : Tables) (sectorCode categoryCode typeCode : string)
  : Prop :=
  Exists (λ s, code s = sectorCode) (FACILITY_SECTORS tb)
  ∧ Exists (λ c, code c = categoryCode ∧ parent c = sectorCode)
      (FACILITY_CATEGORIES tb)
  ∧ Exists (λ t, code t = typeCode ∧ parent t = categoryCode)
      (FACILITY_TYPES tb).

(** [x] is the first record of [table] with code [k]; no record of
    [table] has code [k]. *)
Definition first_with_code (k : string) (table : list NAICSCode) (x : NAICSCode)
  : Prop :=
  ∃ before after, table = before ++ x :: after
                  ∧ Forall (λ y, code y ≠ k) before ∧ code x = k.

Definition no_code (k : string) (table : list NAICSCode) : Prop :=
  Forall (λ y, code y ≠ k) table.

Definition no_parent (k : string) (table : list NAICSCode) : Prop :=
  Forall (λ y, parent y ≠ k) table.

(** The text the description helper builds from three titles. *)
Definition description (sector category type : string) : string :=
  sector +:+ " > " +:+ category +:+ " > " +:+ type.

(** A table in alphabetical order of its titles, as Python compares
    [str] values. *)
Definition sorted_by_title (table : list NAICSCode) : Prop :=
  Sorted (λ a b, String.leb (title a) (title b) = true) table.

(** The code column of a sheet, rows without a code left out. *)
Definition code_column (sheet : Sheet2022.DataFrame) : list string :=
  omap Sheet2022.NAICS_Code sheet.

(** A code of [n] characters under an allow-listed sector. *)
Definition kept_code (n : nat) (c : string) : bool :=
  bool_decide (Py.len c = n)
  && bool_decide (Py.take 2 c ∈ Sheet2022.eligible_sectors).

(** The record of the combined manufacturing sector. *)
Definition manufacturing_record : NAICSCode :=
  mkNAICSCode "31-33" "Manufacturing" 2 "".

(** The sector code under which a two-digit code is emitted. *)
Definition combined (c : string) : string :=
  if decide (c ∈ Sheet2022.manufacturing) then "31-33" else c.

(** The sector table holds one record for the combined manufacturing
    sector and none for its three parts. *)
Definition one_manufacturing (sectors : list NAICSCode) : Prop :=
  length (filter (λ r, code r = "31-33") sectors) = 1%nat
  ∧ Forall (λ r, code r ∉ Sheet2022.manufacturing) sectors.

(** Every parent is the code of a record one level up. *)
Definition referentially_closed (tb : Tables) : Prop :=
  Forall (λ c, Exists (λ s, code s = parent c) (FACILITY_SECTORS tb))
    (FACILITY_CATEGORIES tb)
  ∧ Forall (λ t, Exists (λ c, code c = parent t) (FACILITY_CATEGORIES tb))
      (FACILITY_TYPES tb).

(** Every kept category row has a row for its sector, and every kept
    facility-type row a row for its category. *)
Definition hierarchy_complete (df : Sheet2022.DataFrame) : Prop :=
  Forall (λ row, Exists (λ r, Sheet2022.NAICS_Code r
                              = Pd.str_take 2 (Sheet2022.NAICS_Code row)) df)
    (Sheet2022.categories df)
  ∧ Forall (λ row, Exists (λ r, Sheet2022.NAICS_Code r
                                = Pd.str_take 3 (Sheet2022.NAICS_Code row)) df)
      (Sheet2022.facility_types df).

Definition level_hierarchy_complete (df : generate_naics.DataFrame) : Prop :=
  Forall (λ row, generate_naics.eligible (Pd.str (generate_naics.Code row)) = true ->
            Exists (λ r, generate_naics.Level r = Some 2%Z
                         ∧ Py.take 2 (Pd.str (generate_naics.Code r))
                           = Py.take 2 (Pd.str (generate_naics.Code row))) df)
    (generate_naics.subsectors_df df)
  ∧ Forall (λ row, generate_naics.eligible (Pd.str (generate_naics.Code row)) = true ->
              Exists (λ r, generate_naics.Level r = Some 3%Z
                           ∧ Pd.str (generate_naics.Code r)
                             = Py.take 3 (Pd.str (generate_naics.Code row))) df)
      (generate_naics.industries_df df).

(** ** Sample workbooks *)

Definition sample_row (c t : string) : Sheet2022.Row :=
  Sheet2022.mkRow None (Some c) (Some t).

(** A complete hierarchy, with a row that has no code. *)
Definition sample_sheet : Sheet2022.DataFrame :=
  [ sample_row "11" "Agriculture, Forestry, Fishing and Hunting T";
    sample_row "111" "Crop Production T";
    sample_row "111110" "Soybean Farming";
    Sheet2022.mkRow None None (Some "Sector 21 follows");
    sample_row "31" "Manufacturing";
    sample_row "32" "Manufacturing";
    sample_row "311" "Food Manufacturing T";
    sample_row "311111" "Dog and Cat Food Manufacturing";
    sample_row "52" "Finance and Insurance";
    sample_row "521" "Monetary Authorities-Central Bank" ].

(** Categories in an order that is not the alphabetical one, and no
    sector rows at all. *)
Definition orphan_sheet : Sheet2022.DataFrame :=
  [ sample_row "112" "Crop Production";
    sample_row "111" "Animal Production" ].

Definition level_row (l : Z) (c t : string) : generate_naics.Row :=
  generate_naics.mkRow (Some l) (Some c) (Some t).

Definition sample_level_sheet : generate_naics.DataFrame :=
  [ level_row 2 "11" "Agriculture";
    level_row 3 "111" "Crop production";
    level_row 6 "111110" "Soybean farming";
    generate_naics.mkRow (Some 3%Z) None (Some "Untitled");
    level_row 2 "31" "Manufacturing";
    level_row 2 "32" "Manufacturing";
    level_row 3 "311" "Food manufacturing";
    level_row 6 "311111" "Dog and cat food manufacturing" ].

Definition orphan_level_sheet : generate_naics.DataFrame :=
  [ level_row 3 "112" "Crop production";
    level_row 3 "111" "Animal production" ].

(** ** The messages printed on the console *)

Module Console.

(** The f-string that clean_naics.py prints before it writes the file;
    a hole holding an [int] is written in decimal. *)
Definition clean_found (df : Sheet2022.DataFrame) : string :=
  "Found " +:+ pretty (length (clean_naics.sectors_list df))
  +:+ " sectors, " +:+ pretty (length (Sheet2022.categories df))
  +:+ " categories, " +:+ pretty (length (Sheet2022.facility_types df))
  +:+ " facility types".

(** The same line in extract_naics.py, where the first hole is the
    length of the frame built from [sectors_list]. *)
Definition extract_found (df : Sheet2022.DataFrame) : string :=
  "Found " +:+ pretty (length (extract_naics.sectors_list df))
  +:+ " sectors, " +:+ pretty (length (Sheet2022.categories df))
  +:+ " categories, " +:+ pretty (length (Sheet2022.facility_types df))
  +:+ " facility types".

(** The counter of generate_naics.py: one more for each row of
    [industries_df] that passes the guard of the loop. *)
Definition count (df : generate_naics.DataFrame) : nat :=
  foldl (λ count row,
           if generate_naics.eligible (Pd.str (generate_naics.Code row))
           then S count else count)
        0%nat (generate_naics.industries_df df).

Definition generate_added (df : generate_naics.DataFrame) : string :=
  "Added " +:+ pretty (count df) +:+ " facility types".

End Console.

(** ** Further vocabulary *)

(** The character occurs in the text; the number of its occurrences. *)
Fixpoint occurs (c : ascii) (s : string) : bool :=
  match s with
  | EmptyString => false
  | String a s' => Ascii.eqb a c || occurs c s'
  end.

Fixpoint occurrences (c : ascii) (s : string) : nat :=
  match s with
  | EmptyString => 0%nat
  | String a s' => ((if Ascii.eqb a c then 1 else 0) + occurrences c s')%nat
  end.

(** Every occurrence of [q] stands right after a backslash; [after]
    tells whether the character in front of the text is a backslash. *)
Fixpoint guarded (q : ascii) (after : bool) (s : string) : bool :=
  match s with
  | EmptyString => true
  | String a s' =>
      (if Ascii.eqb a q then after else true) && guarded q (Ascii.eqb a "092") s'
  end.

(** The sector codes clean_naics.py and extract_naics.py can write. *)
Definition combined_sector_codes : list string :=
  ["11"; "21"; "22"; "23"; "31-33"; "48"; "56"].

(** The sector records generate_naics.py can write, in the order of its
    allow-list, with the titles of its chain of comparisons. *)
Definition fixed_sectors : list NAICSCode :=
  [ mkNAICSCode "11" "Agriculture, forestry, fishing and hunting" 2 "";
    mkNAICSCode "21" "Mining, quarrying, and oil and gas extraction" 2 "";
    mkNAICSCode "22" "Utilities" 2 "";
    mkNAICSCode "23" "Construction" 2 "";
    mkNAICSCode "31" "Manufacturing" 2 "";
    mkNAICSCode "32" "Manufacturing" 2 "";
    mkNAICSCode "33" "Manufacturing" 2 "";
    mkNAICSCode "48" "Transportation and warehousing" 2 "";
    mkNAICSCode "56"
      "Administrative and support, waste management and remediation services"
      2 "" ].

(** The titles of the level-2 rows whose code starts with [k], in the
    order of the rows. *)
Definition group_titles (k : string) (rows : generate_naics.DataFrame)
  : list string :=
  (λ row, Pd.str (generate_naics.Class_title row))
    <$> filter (λ row, Py.take 2 (Pd.str (generate_naics.Code row)) = k) rows.

(** A comparison of texts by code points, with the sign convention of
    [localeCompare]. *)
Definition code_point_compare (a b : string) : Z :=
  match String.compare a b with
  | Lt => (-1)%Z
  | Eq => 0%Z
  | Gt => 1%Z
  end.



(** ** Facts on the string primitives *)

Section StringFacts.
Import Py.

Lemma newline_is_space c : Ascii.eqb c "010" = true -> is_space c = true.
Proof. intros H%Ascii.eqb_eq. by subst. Qed.

Lemma all_space_app s1 s2 :
  all_space (s1 +:+ s2) = all_space s1 && all_space s2.
Proof.
  induction s1 as [|c s1 IH]; simpl; [done|].
  by rewrite IH, andb_assoc.
Qed.

Lemma match_spaces_dollar_Some rest n :
  match_spaces_dollar rest = Some n ->
  all_space rest = true /\ n = String.length rest.
Proof.
  revert n. induction rest as [|c rest IH]; simpl; intros n Hn.
  - by inversion Hn.
  - destruct (is_space c) eqn:Hc.
    + destruct (match_spaces_dollar rest) as [m|] eqn:Hm.
      * destruct (IH m eq_refl) as [-> ->]. by inversion Hn.
      * destruct rest; simpl in *; discriminate.
    + destruct rest; simpl in *; [|discriminate].
      destruct (Ascii.eqb c "010") eqn:Hnl; [|discriminate].
      apply newline_is_space in Hnl. congruence.
Qed.

Lemma match_spaces_dollar_all rest :
  all_space rest = true ->
  match_spaces_dollar rest = Some (String.length rest).
Proof.
  induction rest as [|c rest IH]; simpl; [done|].
  intros [Hc Hrest]%andb_true_iff. by rewrite Hc, IH.
Qed.

Lemma match_marker_Some s n :
  match_marker s = Some n ->
  exists rest, s = String "T" rest /\ all_space rest = true
               /\ n = S (String.length rest).
Proof.
  destruct s as [|c rest]; simpl; [done|].
  destruct (Ascii.eqb c "T") eqn:Hc; [|done].
  apply Ascii.eqb_eq in Hc as ->.
  destruct (match_spaces_dollar rest) as [m|] eqn:Hm; simpl; [|done].
  intros [= <-]. apply match_spaces_dollar_Some in Hm as [? ->]. eauto.
Qed.

Lemma sub_marker_from_all s : sub_marker_from (String.length s) s = "".
Proof. induction s; simpl; auto. Qed.

(** The substitution deletes the marker and what follows it. *)
Lemma sub_marker_marked body ws :
  all_space ws = true -> sub_marker (body +:+ String "T" ws) = body.
Proof.
  intros Hws. unfold sub_marker.
  induction body as [|c body IH]; simpl.
  - rewrite (match_spaces_dollar_all _ Hws). simpl. apply sub_marker_from_all.
  - destruct (Ascii.eqb c "T"); [|by rewrite IH].
    destruct (match_spaces_dollar (body +:+ String "T" ws)) as [m|] eqn:Hm;
      simpl; [|by rewrite IH].
    apply match_spaces_dollar_Some in Hm as [Hsp _].
    rewrite all_space_app in Hsp. simpl in Hsp.
    rewrite andb_false_r in Hsp. discriminate.
Qed.

Lemma ends_with_marker_app body ws :
  all_space ws = true -> ends_with_marker (body +:+ String "T" ws) = true.
Proof.
  intros Hws. induction body as [|c body IH]; simpl.
  - by rewrite Hws.
  - rewrite IH. apply orb_true_r.
Qed.

Lemma ends_with_marker_split s :
  ends_with_marker s = true ->
  exists body ws, s = body +:+ String "T" ws /\ all_space ws = true.
Proof.
  induction s as [|c s IH]; simpl; [done|].
  intros [[Hc Hs]%andb_true_iff | H]%orb_true_iff.
  - apply Ascii.eqb_eq in Hc as ->. by exists "", s.
  - destruct (IH H) as (body & ws & -> & Hws). by exists (String c body), ws.
Qed.

(** Without the marker the substitution changes nothing. *)
Lemma sub_marker_unmarked s :
  ends_with_marker s = false -> sub_marker s = s.
Proof.
  unfold sub_marker. induction s as [|c s IH]; [done|].
  intros H. cbn [ends_with_marker] in H.
  apply orb_false_iff in H as [Hhead Htail].
  cbn [sub_marker_from].
  destruct (match_marker (String c s)) as [[|k]|] eqn:Hm;
    try by rewrite (IH Htail).
  apply match_marker_Some in Hm as (rest & [= -> ->] & Hsp & _).
  simpl in Hhead. by rewrite Hsp in Hhead.
Qed.

Lemma lstrip_no_space s : starts_with_space s = false -> lstrip s = s.
Proof. destruct s; simpl; [done|]. by intros ->. Qed.

Lemma rstrip_no_space s : ends_with_space s = false -> rstrip s = s.
Proof.
  induction s as [|c s IH]; [done|].
  destruct s as [|d s]; simpl in *.
  - by intros ->.
  - intros H. rewrite (IH H). done.
Qed.

Lemma lstrip_snoc w c :
  is_space c = false ->
  lstrip (w +:+ String c "") = lstrip w +:+ String c "".
Proof.
  intros Hc. induction w as [|d w IH]; simpl.
  - by rewrite Hc.
  - by destruct (is_space d).
Qed.

Lemma rstrip_snoc w c :
  is_space c = false -> rstrip (w +:+ String c "") = w +:+ String c "".
Proof.
  intros Hc. induction w as [|d w IH]; simpl.
  - by rewrite Hc.
  - rewrite IH. by destruct w.
Qed.
End StringFacts.

(** ** clean_title *)

Lemma string_app_assoc (s1 s2 s3 : string) :
  (s1 +:+ s2) +:+ s3 = s1 +:+ (s2 +:+ s3).
Proof.
  induction s1 as [|c s1 IH]; [done|].
  change (String c ((s1 +:+ s2) +:+ s3) = String c (s1 +:+ s2 +:+ s3)).
  by rewrite IH.
Qed.

(** C6, as the claim words it, fails: text without the marker is still
    trimmed, so it does not always come back unchanged. *)
Lemma clean_title_unmarked_counterexample :
  ends_with_marker " Utilities" = false
  ∧ clean_title " Utilities" = "Utilities"
  ∧ clean_title " Utilities" ≠ " Utilities".
Proof. by vm_compute. Qed.

(** C6 (amended): clean_title deletes one trailing marker (a [T] followed
    by nothing but whitespace up to the end) and trims the rest; text
    without the marker comes back trimmed, hence unchanged when it neither
    starts nor ends with whitespace; the two examples of the contract
    hold. *)
Theorem clean_title_contract :
  (∀ body ws, Py.all_space ws = true ->
     clean_title (body +:+ String "T" ws) = Py.strip body)
  ∧ (∀ s, ends_with_marker s = false -> clean_title s = Py.strip s)
  ∧ (∀ s, ends_with_marker s = false -> starts_with_space s = false ->
          ends_with_space s = false -> clean_title s = s)
  ∧ clean_title "Crop Production T" = "Crop Production"
  ∧ clean_title "Utilities" = "Utilities".
Proof.
  split_and!; try reflexivity.
  - intros body ws Hws. unfold clean_title. by rewrite sub_marker_marked.
  - intros s Hs. unfold clean_title. by rewrite sub_marker_unmarked.
  - intros s Hs Hl Hr. unfold clean_title, Py.strip.
    rewrite sub_marker_unmarked by done.
    rewrite lstrip_no_space by done. by apply rstrip_no_space.
Qed.

Lemma clean_title_contract_witness :
  clean_title ("Soybean Farming " +:+ String "T" " ") = "Soybean Farming"
  ∧ clean_title " Utilities " = "Utilities"
  ∧ clean_title "Utilities" = "Utilities".
Proof.
  destruct clean_title_contract as (Hmarked & Hunmarked & Hsame & _).
  split_and!.
  - exact (Hmarked "Soybean Farming " " " eq_refl).
  - exact (Hunmarked " Utilities " eq_refl).
  - exact (Hsame "Utilities" eq_refl eq_refl eq_refl).
Defined.

(** C9: the final [T] of a word goes too.  When the last character
    that is not whitespace is a [T] standing right after a character [c]
    that is not whitespace, the result is the text up to and including
    [c], without the [T]. *)
Theorem clean_title_eats_final_letter word c ws :
  Py.is_space c = false -> Py.all_space ws = true ->
  clean_title (word +:+ String c (String "T" ws))
  = Py.lstrip word +:+ String c "".
Proof.
  intros Hc Hws.
  change (String c (String "T" ws)) with (String c "" +:+ String "T" ws).
  rewrite <- (string_app_assoc word (String c "") (String "T" ws)).
  unfold clean_title, Py.strip.
  rewrite sub_marker_marked by done.
  rewrite lstrip_snoc by done. by apply rstrip_snoc.
Qed.

Lemma clean_title_eats_final_letter_witness :
  clean_title "BUILDING CONTRACT" = "BUILDING CONTRAC".
Proof. exact (clean_title_eats_final_letter "BUILDING CONTRA" "C" "" eq_refl eq_refl). Defined.

(** ** The generated helpers *)

Section HelperFacts.
Import TS.

Lemma find_truthy (test : NAICSCode -> bool) (P : NAICSCode -> Prop) l :
  (∀ x, test x = true ↔ P x) ->
  truthy (find test l) = true ↔ Exists P l.
Proof.
  intros Htest. unfold find. induction l as [|x l IH]; simpl.
  - split; [done|]. by intros ?%Exists_nil.
  - rewrite Exists_cons. destruct (test x) eqn:Hx; simpl.
    + split; [|done]. intros _. left. by apply Htest.
    + rewrite IH. split; [by right|]. intros [HP|]; [|done].
      apply Htest in HP. congruence.
Qed.

Lemma strict_eq_true a b : strict_eq a (Some b) = true ↔ a = b.
Proof.
  unfold strict_eq. rewrite bool_decide_eq_true. split; congruence.
Qed.

Lemma find_first_with_code k table x :
  first_with_code k table x ->
  find (λ y, strict_eq (code y) (Some k)) table = Some x.
Proof.
  intros (before & after & -> & Hbefore & Hx). unfold find.
  induction Hbefore as [|y before Hy _ IH]; simpl.
  - by rewrite (proj2 (strict_eq_true _ _) Hx).
  - destruct (strict_eq (code y) (Some k)) eqn:E; [|done].
    by apply strict_eq_true in E.
Qed.

Lemma find_no_code k table :
  no_code k table -> find (λ y, strict_eq (code y) (Some k)) table = None.
Proof.
  unfold find. induction 1 as [|y table Hy _ IH]; simpl; [done|].
  destruct (strict_eq (code y) (Some k)) eqn:E; [|done].
  by apply strict_eq_true in E.
Qed.

Lemma filter_no_parent k table :
  no_parent k table ->
  filter_ (λ y, strict_eq (parent y) (Some k)) table = [].
Proof.
  unfold filter_. induction 1 as [|y table Hy _ IH]; simpl; [done|].
  destruct (strict_eq (parent y) (Some k)) eqn:E; [|done].
  by apply strict_eq_true in E.
Qed.

(** No code is identical to [undefined]. *)
Lemma find_undefined table :
  find (λ y, strict_eq (code y) None) table = None.
Proof. unfold find. by induction table. Qed.
End HelperFacts.

(** C1: the resolver returns the type code, and leaves the tables as
    they are, exactly when the sector exists, the category exists under
    that sector and the type exists under that category; in every other
    case, and only then, it throws the invalid-combination error, again
    with the tables as they are. *)
Theorem generateNAICSCode_valid_iff tb sectorCode categoryCode typeCode :
  (TS.generateNAICSCode sectorCode categoryCode typeCode tb
     = (TS.Returns typeCode, tb)
   ↔ valid_combination tb sectorCode categoryCode typeCode)
  ∧ (TS.generateNAICSCode sectorCode categoryCode typeCode tb
       = (TS.Throws "Invalid NAICS code combination", tb)
     ↔ ¬ valid_combination tb sectorCode categoryCode typeCode).
Proof.
  unfold TS.generateNAICSCode, TS.bind, TS.read, TS.ret, TS.throw, TS.not_,
    valid_combination.
  set (test_s := λ s, TS.strict_eq (code s) (Some sectorCode)).
  set (test_c := λ c, TS.strict_eq (code c) (Some categoryCode)
                      && TS.strict_eq (parent c) (Some sectorCode)).
  set (test_t := λ t, TS.strict_eq (code t) (Some typeCode)
                      && TS.strict_eq (parent t) (Some categoryCode)).
  rewrite <- (find_truthy test_s _ (FACILITY_SECTORS tb)).
  2:{ intros x. apply strict_eq_true. }
  rewrite <- (find_truthy test_c _ (FACILITY_CATEGORIES tb)).
  2:{ intros x. unfold test_c. by rewrite andb_true_iff, !strict_eq_true. }
  rewrite <- (find_truthy test_t _ (FACILITY_TYPES tb)).
  2:{ intros x. unfold test_t. by rewrite andb_true_iff, !strict_eq_true. }
  generalize (TS.truthy (TS.find test_s (FACILITY_SECTORS tb)))
    (TS.truthy (TS.find test_c (FACILITY_CATEGORIES tb)))
    (TS.truthy (TS.find test_t (FACILITY_TYPES tb))).
  intros [] [] []; simpl; intuition congruence.
Qed.

Lemma generateNAICSCode_valid_iff_witness :
  TS.generateNAICSCode "11" "111" "111110"
    (mkTables [mkNAICSCode "11" "Agriculture" 2 ""]
              [mkNAICSCode "111" "Crop Production" 3 "11"]
              [mkNAICSCode "111110" "Soybean Farming" 6 "111"])
  = (TS.Returns "111110",
     mkTables [mkNAICSCode "11" "Agriculture" 2 ""]
              [mkNAICSCode "111" "Crop Production" 3 "11"]
              [mkNAICSCode "111110" "Soybean Farming" 6 "111"]).
Proof.
  apply (proj1 (generateNAICSCode_valid_iff _ _ _ _)).
  unfold valid_combination; simpl.
  split_and!; apply Exists_cons_hd; done.
Defined.

(** C2, as the claim words it, fails on a broken parent chain: the type
    is found, its parent matches no category, and the helper returns a
    text built around the word undefined, not the fallback. *)
Lemma getNAICSDescription_broken_chain_counterexample :
  first_with_code "111110"
    [mkNAICSCode "111110" "Soybean Farming" 6 "111"]
    (mkNAICSCode "111110" "Soybean Farming" 6 "111")
  ∧ no_code "111" [mkNAICSCode "211" "Oil and Gas Extraction" 3 "21"]
  ∧ TS.getNAICSDescription "111110"
      (mkTables [mkNAICSCode "21" "Mining" 2 ""]
                [mkNAICSCode "211" "Oil and Gas Extraction" 3 "21"]
                [mkNAICSCode "111110" "Soybean Farming" 6 "111"])
    = (TS.Returns "undefined > undefined > Soybean Farming",
       mkTables [mkNAICSCode "21" "Mining" 2 ""]
                [mkNAICSCode "211" "Oil and Gas Extraction" 3 "21"]
                [mkNAICSCode "111110" "Soybean Farming" 6 "111"])
  ∧ TS.getNAICSDescription "111110"
      (mkTables [mkNAICSCode "21" "Mining" 2 ""]
                [mkNAICSCode "211" "Oil and Gas Extraction" 3 "21"]
                [mkNAICSCode "111110" "Soybean Farming" 6 "111"])
    ≠ (TS.Returns "Unknown NAICS code",
       mkTables [mkNAICSCode "21" "Mining" 2 ""]
                [mkNAICSCode "211" "Oil and Gas Extraction" 3 "21"]
                [mkNAICSCode "111110" "Soybean Farming" 6 "111"]).
Proof.
  split_and!.
  - by exists [], [].
  - by repeat constructor.
  - by vm_compute.
  - by vm_compute.
Qed.

(** C2 (amended): the description helper never throws and leaves the
    tables as they are.  It returns the fallback text when no type record
    has the code.  Otherwise, with [t] the first type record of that code,
    it returns the text made of the sector title, the category title and
    the type title, where the category is the first one whose code is the
    parent of [t] and the sector the first one whose code is the parent of
    that category; the word undefined stands for the title of a category
    or sector that is not found. *)
Theorem getNAICSDescription_cases tb naicsCode :
  (∃ text, TS.getNAICSDescription naicsCode tb = (TS.Returns text, tb))
  ∧ (no_code naicsCode (FACILITY_TYPES tb) ->
     TS.getNAICSDescription naicsCode tb = (TS.Returns "Unknown NAICS code", tb))
  ∧ (∀ t, first_with_code naicsCode (FACILITY_TYPES tb) t ->
       (∀ c s, first_with_code (parent t) (FACILITY_CATEGORIES tb) c ->
               first_with_code (parent c) (FACILITY_SECTORS tb) s ->
               TS.getNAICSDescription naicsCode tb
               = (TS.Returns (description (title s) (title c) (title t)), tb))
       ∧ (∀ c, first_with_code (parent t) (FACILITY_CATEGORIES tb) c ->
               no_code (parent c) (FACILITY_SECTORS tb) ->
               TS.getNAICSDescription naicsCode tb
               = (TS.Returns (description "undefined" (title c) (title t)), tb))
       ∧ (no_code (parent t) (FACILITY_CATEGORIES tb) ->
          TS.getNAICSDescription naicsCode tb
          = (TS.Returns (description "undefined" "undefined" (title t)), tb))).
Proof.
  unfold TS.getNAICSDescription, TS.bind, TS.read, TS.ret, description.
  split_and!.
  - destruct (TS.find _ (FACILITY_TYPES tb)); simpl; eauto.
  - intros Hnone. by rewrite (find_no_code _ _ Hnone).
  - intros t Ht. rewrite (find_first_with_code _ _ _ Ht). simpl.
    split_and!.
    + intros c s Hc Hs. rewrite (find_first_with_code _ _ _ Hc). simpl.
      by rewrite (find_first_with_code _ _ _ Hs).
    + intros c Hc Hs. rewrite (find_first_with_code _ _ _ Hc). simpl.
      by rewrite (find_no_code _ _ Hs).
    + intros Hc. rewrite (find_no_code _ _ Hc). simpl.
      by rewrite find_undefined.
Qed.

Lemma getNAICSDescription_cases_witness :
  TS.getNAICSDescription "111110"
    (mkTables [mkNAICSCode "11" "Agriculture" 2 ""]
              [mkNAICSCode "111" "Crop Production" 3 "11"]
              [mkNAICSCode "111110" "Soybean Farming" 6 "111"])
  = (TS.Returns "Agriculture > Crop Production > Soybean Farming",
     mkTables [mkNAICSCode "11" "Agriculture" 2 ""]
              [mkNAICSCode "111" "Crop Production" 3 "11"]
              [mkNAICSCode "111110" "Soybean Farming" 6 "111"])
  ∧ TS.getNAICSDescription "999999" (mkTables [] [] [])
    = (TS.Returns "Unknown NAICS code", mkTables [] [] []).
Proof.
  split.
  - refine (proj1 (proj2 (proj2 (getNAICSDescription_cases _ "111110"))
                     (mkNAICSCode "111110" "Soybean Farming" 6 "111") _)
              (mkNAICSCode "111" "Crop Production" 3 "11")
              (mkNAICSCode "11" "Agriculture" 2 "") _ _);
      by exists [], [].
  - apply (proj1 (proj2 (getNAICSDescription_cases _ "999999"))).
    constructor.
Defined.

(** C10: the two lookups, with or without the final sort, never throw
    and leave the tables as they are; for a code that is the parent of no
    record they return the empty array. *)
Theorem lookups_never_throw localeCompare tb k :
  (∃ found, TS.Plain.getFacilityCategoriesBySector k tb = (TS.Returns found, tb))
  ∧ (∃ found, TS.Plain.getFacilityTypesByCategory k tb = (TS.Returns found, tb))
  ∧ (∃ found, TS.Sorted.getFacilityCategoriesBySector localeCompare k tb
              = (TS.Returns found, tb))
  ∧ (∃ found, TS.Sorted.getFacilityTypesByCategory localeCompare k tb
              = (TS.Returns found, tb))
  ∧ (no_parent k (FACILITY_CATEGORIES tb) ->
     TS.Plain.getFacilityCategoriesBySector k tb = (TS.Returns [], tb)
     ∧ TS.Sorted.getFacilityCategoriesBySector localeCompare k tb
       = (TS.Returns [], tb))
  ∧ (no_parent k (FACILITY_TYPES tb) ->
     TS.Plain.getFacilityTypesByCategory k tb = (TS.Returns [], tb)
     ∧ TS.Sorted.getFacilityTypesByCategory localeCompare k tb
       = (TS.Returns [], tb)).
Proof.
  unfold TS.Plain.getFacilityCategoriesBySector,
    TS.Plain.getFacilityTypesByCategory,
    TS.Sorted.getFacilityCategoriesBySector,
    TS.Sorted.getFacilityTypesByCategory, TS.bind, TS.read, TS.ret.
  split_and!; eauto.
  - intros H. by rewrite (filter_no_parent _ _ H).
  - intros H. by rewrite (filter_no_parent _ _ H).
Qed.

Lemma lookups_never_throw_witness :
  TS.Sorted.getFacilityCategoriesBySector (λ a b, 0%Z) "99"
    (mkTables [mkNAICSCode "11" "Agriculture" 2 ""]
              [mkNAICSCode "111" "Crop Production" 3 "11"]
              [mkNAICSCode "111110" "Soybean Farming" 6 "111"])
  = (TS.Returns [],
     mkTables [mkNAICSCode "11" "Agriculture" 2 ""]
              [mkNAICSCode "111" "Crop Production" 3 "11"]
              [mkNAICSCode "111110" "Soybean Farming" 6 "111"]).
Proof.
  apply (lookups_never_throw (λ a b, 0%Z) _ "99").
  by repeat constructor.
Defined.

(** ** The Python sort *)

Section SortFacts.
Context {A : Type} (key : A -> string).

Lemma insert_sorted_Permutation x l : Py.insert_sorted key x l ≡ₚ x :: l.
Proof.
  induction l as [|y l IH]; simpl; [done|].
  destruct (String.ltb (key y) (key x)); [|done].
  rewrite IH. apply Permutation_swap.
Qed.

Lemma sort_Permutation l : Py.sort key l ≡ₚ l.
Proof.
  induction l as [|x l IH]; simpl; [done|].
  by rewrite insert_sorted_Permutation, IH.
Qed.

Lemma elem_of_sort x l : x ∈ Py.sort key l ↔ x ∈ l.
Proof. by rewrite sort_Permutation. Qed.

Local Abbreviation key_le := (λ a b : A, String.leb (key a) (key b) = true).

Lemma ltb_leb s1 s2 : String.ltb s1 s2 = true -> String.leb s1 s2 = true.
Proof. unfold String.ltb, String.leb. by destruct (String.compare s1 s2). Qed.

Lemma not_ltb_leb s1 s2 : String.ltb s1 s2 = false -> String.leb s2 s1 = true.
Proof.
  unfold String.ltb, String.leb. rewrite (String.compare_antisym s2 s1).
  by destruct (String.compare s1 s2).
Qed.

Lemma insert_sorted_HdRel a x l :
  key_le a x -> HdRel key_le a l -> HdRel key_le a (Py.insert_sorted key x l).
Proof.
  intros Hax Hal. destruct l as [|y l]; simpl; [by constructor|].
  inversion_clear Hal. destruct (String.ltb (key y) (key x)); by constructor.
Qed.

Lemma insert_sorted_Sorted x l :
  Sorted key_le l -> Sorted key_le (Py.insert_sorted key x l).
Proof.
  induction 1 as [|y l Hl IH Hy]; simpl; [by repeat constructor|].
  destruct (String.ltb (key y) (key x)) eqn:E.
  - constructor; [done|]. apply insert_sorted_HdRel; [|done].
    by apply ltb_leb.
  - constructor; [by constructor|]. constructor. by apply not_ltb_leb.
Qed.

Lemma sort_Sorted l : Sorted key_le (Py.sort key l).
Proof.
  induction l as [|x l IH]; simpl; [constructor|].
  by apply insert_sorted_Sorted.
Qed.
End SortFacts.

Lemma Sorted_fmap {A B} (R : A -> A -> Prop) (S : B -> B -> Prop) (f : A -> B) l :
  (∀ a b, R a b -> S (f a) (f b)) -> Sorted R l -> Sorted S (f <$> l).
Proof.
  intros Hf. induction 1 as [|x l Hl IH Hx]; simpl; constructor; [done|].
  destruct Hx; simpl; constructor. by apply Hf.
Qed.

(** ** The sheet of clean_naics.py and extract_naics.py *)

Section SheetFacts.
Import Sheet2022.

Lemma load_cons row sheet :
  load (row :: sheet)
  = match NAICS_Code row with
    | Some c => mkRow (Change_Indicator row) (Some c)
                      (Some (Pd.str (NAICS_Title row))) :: load sheet
    | None => load sheet
    end.
Proof.
  unfold load, dropna. rewrite filter_cons.
  destruct (NAICS_Code row) as [c|] eqn:E; simpl; [|done].
  by rewrite E.
Qed.

Lemma elem_of_load row sheet :
  row ∈ load sheet ↔
  ∃ r0 c, r0 ∈ sheet ∧ NAICS_Code r0 = Some c
          ∧ row = mkRow (Change_Indicator r0) (Some c)
                        (Some (Pd.str (NAICS_Title r0))).
Proof.
  induction sheet as [|r sheet IH].
  - split; [by intros ?%elem_of_nil|]. by intros (? & ? & ?%elem_of_nil & _).
  - rewrite load_cons. destruct (NAICS_Code r) as [c|] eqn:E.
    + rewrite elem_of_cons, IH. split.
      * intros [->|(r0 & c0 & ? & ? & ?)].
        -- exists r, c. split_and!; [left|..]; done.
        -- exists r0, c0. split_and!; [by right|..]; done.
      * intros (r0 & c0 & [->|?]%elem_of_cons & Hc & ->).
        -- left. congruence.
        -- right. by exists r0, c0.
    + rewrite IH. split.
      * intros (r0 & c0 & ? & ? & ?). exists r0, c0. by split_and!; [right|..].
      * intros (r0 & c0 & [->|?]%elem_of_cons & Hc & ->); [congruence|].
        by exists r0, c0.
Qed.

Lemma kept_code_true n c :
  kept_code n c = true ↔ Py.len c = n ∧ Py.take 2 c ∈ eligible_sectors.
Proof.
  unfold kept_code. by rewrite andb_true_iff, !bool_decide_eq_true.
Qed.

Lemma elem_of_rows_of_length n df row :
  row ∈ rows_of_length n df ↔
  row ∈ df ∧ ∃ c, NAICS_Code row = Some c ∧ kept_code n c = true.
Proof.
  unfold rows_of_length. rewrite !list_elem_of_filter.
  destruct (NAICS_Code row) as [c|]; simpl.
  - split.
    + intros (Hel%bool_decide_unpack & [= Hn] & Hin). split; [done|].
      exists c. split; [done|]. by apply kept_code_true.
    + intros (Hin & c' & [= <-] & [Hn Hel]%kept_code_true).
      split_and!; [by apply bool_decide_pack|by f_equal|done].
  - split; [by intros ([] & _)|]. by intros (_ & ? & ? & _).
Qed.

Lemma elem_of_sectors_raw df row :
  row ∈ sectors_raw df ↔
  row ∈ df ∧ ∃ c, NAICS_Code row = Some c ∧ Py.len c = 2%nat
                  ∧ c ∈ eligible_sectors.
Proof.
  unfold sectors_raw. rewrite !list_elem_of_filter.
  destruct (NAICS_Code row) as [c|]; simpl.
  - split.
    + intros (Hel%bool_decide_unpack & [= Hn] & Hin). split; [done|].
      by exists c.
    + intros (Hin & c' & [= <-] & Hn & Hel).
      split_and!; [by apply bool_decide_pack|by f_equal|done].
  - split; [by intros ([] & _)|]. by intros (_ & ? & ? & _).
Qed.

(** The codes of the kept rows are the kept codes of the sheet, in the
    order of the sheet. *)
Lemma codes_rows_of_length n sheet :
  (λ row, Pd.str (NAICS_Code row)) <$> rows_of_length n (load sheet)
  = filter (λ c, kept_code n c) (code_column sheet).
Proof.
  unfold code_column, rows_of_length.
  induction sheet as [|r sheet IH]; [done|].
  rewrite load_cons. destruct (NAICS_Code r) as [c|] eqn:E;
    simpl; rewrite E; [|exact IH].
  rewrite (filter_cons (λ c, kept_code n c)).
  rewrite (filter_cons _ (mkRow _ _ _)). simpl.
  destruct (decide (Some (Py.len c) = Some n)) as [[= Hn]|Hn];
    destruct (decide (kept_code n c)) as [Hk|Hk].
  - apply Is_true_true, kept_code_true in Hk as [_ Hel].
    rewrite filter_cons, decide_True by (by apply bool_decide_pack).
    simpl. f_equal. exact IH.
  - rewrite filter_cons, decide_False; [exact IH|].
    intros Hel%bool_decide_unpack. apply Hk, Is_true_true, kept_code_true.
    done.
  - apply Is_true_true, kept_code_true in Hk as [Hlen _]. congruence.
  - exact IH.
Qed.

Lemma codes_sectors_raw sheet :
  (λ row, Pd.str (NAICS_Code row)) <$> sectors_raw (load sheet)
  = filter (λ c, Py.len c = 2%nat ∧ c ∈ eligible_sectors) (code_column sheet).
Proof.
  unfold code_column, sectors_raw.
  induction sheet as [|r sheet IH]; [done|].
  rewrite load_cons. destruct (NAICS_Code r) as [c|] eqn:E;
    simpl; rewrite E; [|exact IH].
  rewrite (filter_cons (λ c, Py.len c = 2%nat ∧ c ∈ eligible_sectors)).
  rewrite (filter_cons _ (mkRow _ _ _)). simpl.
  destruct (decide (Some (Py.len c) = Some 2%nat)) as [[= Hn]|Hn];
    destruct (decide (Py.len c = 2%nat ∧ c ∈ eligible_sectors)) as [Hk|Hk].
  - destruct Hk as [_ Hel].
    rewrite filter_cons, decide_True by (by apply bool_decide_pack).
    simpl. f_equal. exact IH.
  - rewrite filter_cons, decide_False; [exact IH|].
    intros Hel%bool_decide_unpack. by apply Hk.
  - destruct Hk as [Hlen _]. congruence.
  - exact IH.
Qed.
End SheetFacts.

(** ** The loop that builds the sector list

    clean_naics.py and extract_naics.py run the same loop; only the
    title of an ordinary sector differs. *)

Section SectorLoop.
Import Sheet2022.

Variable step : list NAICSCode * bool -> Row -> list NAICSCode * bool.
Variable title_of : Row -> string.
Hypothesis step_eq : ∀ st row,
  step st row =
  if decide (Pd.str (NAICS_Code row) ∈ manufacturing) then
    if negb st.2 then (st.1 ++ [manufacturing_record], true) else st
  else (st.1 ++ [mkNAICSCode (Pd.str (NAICS_Code row)) (title_of row) 2 ""],
        st.2).

Local Abbreviation loop rows := (foldl step ([], false) rows).

Lemma loop_flag rows :
  (loop rows).2 = true ↔ Exists (λ row, Pd.str (NAICS_Code row) ∈ manufacturing) rows.
Proof.
  induction rows as [|row rows IH] using rev_ind.
  - simpl. split; [done|]. by intros ?%Exists_nil.
  - rewrite foldl_snoc, step_eq, Exists_app, Exists_cons, Exists_nil.
    case_decide as Hm.
    + assert ((if negb (loop rows).2
               then ((loop rows).1 ++ [manufacturing_record], true)
               else loop rows).2 = true) as ->
        by (by destruct (loop rows).2 eqn:Hflag).
      split; [|done]. intros _. right. by left.
    + simpl. rewrite IH. split; [by left|]. by intros [?|[?|[]]].
Qed.

Lemma loop_manufacturing rows :
  Forall (λ row, Pd.str (NAICS_Code row) ≠ "31-33") rows ->
  filter (λ r, code r = "31-33") (loop rows).1
  = if (loop rows).2 then [manufacturing_record] else [].
Proof.
  induction rows as [|row rows IH] using rev_ind; [done|].
  intros [Hrows [Hrow _]%Forall_cons]%Forall_app.
  rewrite foldl_snoc, step_eq. specialize (IH Hrows).
  case_decide as Hm.
  - destruct (loop rows).2 eqn:Hflag; simpl; [by rewrite Hflag|].
    by rewrite filter_app, IH.
  - simpl. rewrite filter_app, IH.
    rewrite filter_cons, decide_False by done. by rewrite app_nil_r.
Qed.

Lemma loop_records rows r :
  r ∈ (loop rows).1 ->
  r = manufacturing_record
  ∨ ∃ row, row ∈ rows ∧ (Pd.str (NAICS_Code row) ∉ manufacturing)
           ∧ r = mkNAICSCode (Pd.str (NAICS_Code row)) (title_of row) 2 "".
Proof.
  induction rows as [|row rows IH] using rev_ind.
  - by intros ?%elem_of_nil.
  - rewrite foldl_snoc, step_eq. case_decide as Hm.
    + destruct (loop rows).2; simpl.
      * intros [?|(row' & ? & ?)]%IH; [by left|right].
        exists row'. by rewrite elem_of_app; auto.
      * intros [[?|(row' & ? & ?)]%IH | ->%list_elem_of_singleton]%elem_of_app;
          [by left| |by left].
        right. exists row'. by rewrite elem_of_app; auto.
    + simpl.
      intros [[?|(row' & ? & ?)]%IH | ->%list_elem_of_singleton]%elem_of_app;
        [by left|right..].
      * exists row'. by rewrite elem_of_app; auto.
      * exists row. rewrite elem_of_app, list_elem_of_singleton. auto.
Qed.

Lemma loop_grows rows row r :
  r ∈ (loop rows).1 -> r ∈ (loop (rows ++ [row])).1.
Proof.
  rewrite foldl_snoc, step_eq. intros Hr.
  case_decide; [destruct (loop rows).2|]; simpl;
    rewrite ?elem_of_app; auto.
Qed.

Lemma loop_has_manufacturing rows :
  (loop rows).2 = true -> manufacturing_record ∈ (loop rows).1.
Proof.
  induction rows as [|row rows IH] using rev_ind; [done|].
  rewrite foldl_snoc, step_eq. case_decide as Hm.
  - destruct (loop rows).2 eqn:Hflag; simpl.
    + rewrite Hflag. apply IH.
    + intros _. rewrite elem_of_app, list_elem_of_singleton. by right.
  - simpl. intros Hflag. rewrite elem_of_app. left. by apply IH.
Qed.

Lemma loop_covers rows row :
  row ∈ rows ->
  ∃ r, r ∈ (loop rows).1 ∧ code r = combined (Pd.str (NAICS_Code row)).
Proof.
  intros Hin. unfold combined. case_decide as Hm.
  - exists manufacturing_record. split; [|done].
    apply loop_has_manufacturing, loop_flag, Exists_exists. eauto.
  - revert Hin. induction rows as [|row' rows IH] using rev_ind.
    + by intros ?%elem_of_nil.
    + intros [Hin | Heq%list_elem_of_singleton]%elem_of_app.
      * destruct (IH Hin) as (r & Hr & Hcode). exists r. split; [|done].
        by apply loop_grows.
      * subst row'.
        exists (mkNAICSCode (Pd.str (NAICS_Code row)) (title_of row) 2 "").
        split; [|done].
        rewrite foldl_snoc, step_eq, decide_False by done. simpl.
        rewrite elem_of_app, list_elem_of_singleton. by right.
Qed.

Lemma loop_order rows :
  code <$> (loop rows).1 `sublist_of` (λ row, combined (Pd.str (NAICS_Code row))) <$> rows.
Proof.
  induction rows as [|row rows IH] using rev_ind; [done|].
  rewrite foldl_snoc, step_eq, fmap_app. simpl. unfold combined at 2.
  case_decide as Hm.
  - destruct (loop rows).2; simpl.
    + by apply sublist_inserts_r.
    + rewrite fmap_app. by apply sublist_app.
  - simpl. rewrite fmap_app. by apply sublist_app.
Qed.
End SectorLoop.

(** ** generate_naics.py *)

Section GenerateFacts.
Import generate_naics.

(** After [astype(str)] no code is NaN, so [dropna] removes nothing. *)
Lemma dropna_after_astype (sheet : DataFrame) :
  dropna (set_Code Pd.astype_str <$> sheet) = set_Code Pd.astype_str <$> sheet.
Proof.
  unfold dropna. induction sheet as [|row sheet IH]; [done|].
  rewrite fmap_cons, filter_cons. simpl. by rewrite IH.
Qed.

Lemma load_eq (sheet : DataFrame) :
  load sheet
  = (λ row, mkRow (Level row)
              (Some (Py.replace ".0" "" (Pd.str (Code row))))
              (Class_title row)) <$> sheet.
Proof.
  unfold load. rewrite dropna_after_astype, <- list_fmap_compose.
  by apply list_fmap_ext.
Qed.

Lemma elem_of_of_level n (df : DataFrame) row :
  row ∈ of_level n df ↔ Level row = Some n ∧ row ∈ df.
Proof. unfold of_level. by rewrite list_elem_of_filter. Qed.

Lemma group_step_is_Some groups row k :
  is_Some (group_step groups row !! k) ↔
  is_Some (groups !! k)
  ∨ (k = Py.take 2 (Pd.str (Code row)) ∧ k ∈ eligible_sectors).
Proof.
  unfold group_step. case_decide as Hel.
  - rewrite lookup_alter_is_Some.
    case_decide as Hnew.
    + rewrite lookup_insert_is_Some'. split.
      * intros [<-|?]; [right|left]; done.
      * intros [?|[-> _]]; [right|left]; done.
    + split; [by left|]. intros [?|[-> _]]; [done|].
      by apply not_eq_None_Some.
  - split; [by left|]. intros [?|[-> ?]]; done.
Qed.

Lemma foldl_group_step_is_Some groups rows k :
  is_Some (foldl group_step groups rows !! k) ↔
  is_Some (groups !! k)
  ∨ (k ∈ eligible_sectors
     ∧ Exists (λ row, Py.take 2 (Pd.str (Code row)) = k) rows).
Proof.
  revert groups. induction rows as [|row rows IH]; intros groups; simpl.
  - split; [by left|]. by intros [?|[_ ?%Exists_nil]].
  - rewrite IH, group_step_is_Some, Exists_cons. split.
    + intros [[?|[Hk ?]]|[? ?]]; [by left|right..]; auto.
    + intros [?|[? [?|?]]]; [by left; left|left; by right|by right].
Qed.

Lemma sector_groups_is_Some (df : DataFrame) k :
  is_Some (sector_groups df !! k) ↔
  k ∈ eligible_sectors
  ∧ Exists (λ row, Level row = Some 2%Z
                   ∧ Py.take 2 (Pd.str (Code row)) = k) df.
Proof.
  unfold sector_groups, sectors_df.
  rewrite foldl_group_step_is_Some, lookup_empty, !Exists_exists.
  split.
  - intros [[? [=]]|[? (row & [? ?]%elem_of_of_level & ?)]]. eauto 6.
  - intros [? (row & ? & ? & ?)]. right. split; [done|].
    exists row. by rewrite elem_of_of_level.
Qed.

Lemma elem_of_emit_sectors (df : DataFrame) r :
  r ∈ emit_sectors df ↔
  ∃ k titles, k ∈ eligible_sectors ∧ sector_groups df !! k = Some titles
              ∧ r = mkNAICSCode k (escape (sector_title k titles)) 2 "".
Proof.
  unfold emit_sectors, consolidated_sectors.
  rewrite list_elem_of_fmap. split.
  - intros ([k t] & -> & (k' & Hk & Hsome)%list_elem_of_omap).
    destruct (sector_groups df !! k') as [titles|] eqn:E; [|done].
    injection Hsome as <- <-. eauto.
  - intros (k & titles & Hk & Hsome & ->).
    exists (k, sector_title k titles). split; [done|].
    apply list_elem_of_omap. exists k. by rewrite Hsome.
Qed.

Lemma emit_sectors_order (df : DataFrame) :
  code <$> emit_sectors df `sublist_of` eligible_sectors.
Proof.
  unfold emit_sectors, consolidated_sectors.
  induction eligible_sectors as [|k l IH]; simpl; [done|].
  destruct (sector_groups df !! k); simpl.
  - by apply sublist_skip.
  - by apply sublist_cons.
Qed.

Lemma elem_of_emit_rows lvl n (rows : DataFrame) r :
  r ∈ omap (emit_row lvl n) rows ↔
  ∃ row, row ∈ rows ∧ eligible (Pd.str (Code row)) = true
         ∧ r = mkNAICSCode (Pd.str (Code row))
                 (escape (Pd.str (Class_title row))) lvl
                 (Py.take n (Pd.str (Code row))).
Proof.
  rewrite list_elem_of_omap. unfold emit_row. split.
  - intros (row & Hin & Hsome).
    destruct (eligible (Pd.str (Code row))) eqn:E; [|done].
    injection Hsome as <-. eauto.
  - intros (row & Hin & E & ->). exists row. by rewrite E.
Qed.

Lemma emit_rows_order lvl n (rows : DataFrame) :
  code <$> omap (emit_row lvl n) rows
  = filter (λ c, eligible c) ((λ row, Pd.str (Code row)) <$> rows).
Proof.
  induction rows as [|row rows IH]; [done|].
  rewrite fmap_cons, filter_cons. cbn [omap list_omap].
  unfold emit_row at 1.
  destruct (eligible (Pd.str (Code row))) eqn:E.
  - rewrite decide_True by done. simpl. f_equal. exact IH.
  - rewrite decide_False by (by intros []). exact IH.
Qed.
End GenerateFacts.

(** ** The sector tables *)

Section SectorTables.
Import Sheet2022.

(** The record written for an entry of the sector list. *)
Local Abbreviation written :=
  (λ sector, mkNAICSCode (code sector) (escape (title sector)) 2 "").

Lemma filter_written (l : list NAICSCode) :
  filter (λ r, code r = "31-33") (written <$> l)
  = written <$> filter (λ r, code r = "31-33") l.
Proof.
  induction l as [|x l IH]; [done|].
  rewrite fmap_cons, !filter_cons. simpl.
  case_decide; rewrite IH; done.
Qed.

Lemma clean_step_eq st row :
  clean_naics.sectors_step st row =
  if decide (Pd.str (NAICS_Code row) ∈ manufacturing) then
    if negb st.2 then (st.1 ++ [manufacturing_record], true) else st
  else (st.1 ++ [mkNAICSCode (Pd.str (NAICS_Code row))
                   (clean_title (Pd.str (NAICS_Title row))) 2 ""], st.2).
Proof. reflexivity. Qed.

Lemma extract_step_eq st row :
  extract_naics.sectors_step st row =
  if decide (Pd.str (NAICS_Code row) ∈ manufacturing) then
    if negb st.2 then (st.1 ++ [manufacturing_record], true) else st
  else (st.1 ++ [mkNAICSCode (Pd.str (NAICS_Code row))
                   (Pd.str (NAICS_Title row)) 2 ""], st.2).
Proof. reflexivity. Qed.

Lemma clean_sectors_Permutation df :
  clean_naics.emit_sectors df ≡ₚ written <$> clean_naics.sectors_unsorted df.
Proof.
  unfold clean_naics.emit_sectors, clean_naics.sectors_list.
  by rewrite sort_Permutation.
Qed.

Lemma manufacturing_eligible c :
  c ∈ manufacturing -> Py.len c = 2%nat ∧ c ∈ eligible_sectors.
Proof.
  unfold manufacturing. rewrite !elem_of_cons, elem_of_nil.
  intros [->|[->|[->|[]]]]; split; compute_done.
Qed.

Lemma sectors_raw_not_combined df :
  Forall (λ row, Pd.str (NAICS_Code row) ≠ "31-33") (sectors_raw df).
Proof.
  apply Forall_forall. intros row (_ & c & -> & Hlen & _)%elem_of_sectors_raw.
  simpl. by intros ->.
Qed.

(** A manufacturing row reaches the loop exactly when the sheet has a
    row whose code is 31, 32 or 33. *)
Lemma manufacturing_present sheet :
  Exists (λ row, Pd.str (NAICS_Code row) ∈ manufacturing)
    (sectors_raw (load sheet))
  ↔ Exists (λ row, Pd.isin (NAICS_Code row) manufacturing) sheet.
Proof.
  rewrite !Exists_exists. split.
  - intros (row & (Hrow & _)%elem_of_sectors_raw & Hm).
    apply elem_of_load in Hrow as (r0 & c & Hr0 & Hc & ->). simpl in Hm.
    exists r0. split; [done|]. rewrite Hc. simpl. by apply bool_decide_pack.
  - intros (r0 & Hr0 & Hm).
    destruct (NAICS_Code r0) as [c|] eqn:Hc; [|done].
    simpl in Hm. apply bool_decide_unpack in Hm.
    exists (mkRow (Change_Indicator r0) (Some c)
                  (Some (Pd.str (NAICS_Title r0)))).
    split; [|done]. apply elem_of_sectors_raw. split.
    + apply elem_of_load. eauto.
    + exists c. split; [done|]. by apply manufacturing_eligible.
Qed.

Section OneLoop.
Variable step : list NAICSCode * bool -> Row -> list NAICSCode * bool.
Variable title_of : Row -> string.
Hypothesis step_eq : ∀ st row,
  step st row =
  if decide (Pd.str (NAICS_Code row) ∈ manufacturing) then
    if negb st.2 then (st.1 ++ [manufacturing_record], true) else st
  else (st.1 ++ [mkNAICSCode (Pd.str (NAICS_Code row)) (title_of row) 2 ""],
        st.2).
Variable sheet : DataFrame.
Variable sectors : list NAICSCode.
Hypothesis sectors_eq :
  sectors ≡ₚ written <$> (foldl step ([], false) (sectors_raw (load sheet))).1.

Lemma sectors_no_parts : Forall (λ r, code r ∉ manufacturing) sectors.
Proof.
  rewrite sectors_eq, Forall_fmap. apply Forall_forall. intros r Hr.
  apply (loop_records step title_of step_eq) in Hr
    as [->|(row & _ & Hm & ->)]; simpl; [compute_done|done].
Qed.

Lemma sectors_combined :
  filter (λ r, code r = "31-33") sectors
  = if decide (Exists (λ row, Pd.isin (NAICS_Code row) manufacturing) sheet)
    then [manufacturing_record] else [].
Proof.
  pose proof (loop_manufacturing step title_of step_eq _
                (sectors_raw_not_combined (load sheet))) as Hfilter.
  pose proof (loop_flag step title_of step_eq (sectors_raw (load sheet)))
    as Hflag.
  rewrite manufacturing_present in Hflag.
  assert (filter (λ r, code r = "31-33") sectors
          ≡ₚ written <$> filter (λ r, code r = "31-33")
               (foldl step ([], false) (sectors_raw (load sheet))).1)
    as Hperm.
  { rewrite sectors_eq. by rewrite filter_written. }
  rewrite Hfilter in Hperm.
  destruct (foldl step ([], false) (sectors_raw (load sheet))).2.
  - rewrite decide_True by (by apply Hflag).
    by apply Permutation_singleton_r in Hperm.
  - rewrite decide_False by (by intros ?%Hflag).
    by apply Permutation_nil_r in Hperm.
Qed.

Lemma sectors_cover row :
  row ∈ sectors_raw (load sheet) ->
  Exists (λ s, code s = combined (Pd.str (NAICS_Code row))) sectors.
Proof.
  intros (r & Hr & Hcode)%(loop_covers step title_of step_eq).
  rewrite sectors_eq, Exists_fmap. apply Exists_exists. by exists r.
Qed.

Lemma sectors_order :
  code <$> (foldl step ([], false) (sectors_raw (load sheet))).1
  `sublist_of`
  combined <$> filter (λ c, Py.len c = 2%nat ∧ c ∈ eligible_sectors)
                 (code_column sheet).
Proof.
  rewrite <- codes_sectors_raw, <- list_fmap_compose.
  apply (loop_order step title_of step_eq).
Qed.
End OneLoop.
End SectorTables.

(** C3, as the claim words it, fails: generate_naics.py writes the
    manufacturing codes it meets one by one and never the combined
    code. *)
Lemma manufacturing_counterexample :
  code <$> FACILITY_SECTORS (generate_naics.run sample_level_sheet) = ["11"; "31"; "32"]
  ∧ ¬ one_manufacturing (FACILITY_SECTORS (generate_naics.run sample_level_sheet)).
Proof.
  split; [by vm_compute|]. intros [Hlen _]. by vm_compute in Hlen.
Qed.

(** C3 (amended): in clean_naics.py and extract_naics.py the sector table
    never holds a record with code 31, 32 or 33, and its records with code
    31-33 are the single Manufacturing record when the sheet has a row
    with code 31, 32 or 33, and none otherwise.  generate_naics.py never
    writes the code 31-33: for each of 31, 32 and 33 it writes a record
    titled Manufacturing exactly when the code of some level-2 row starts
    with those two characters. *)
Theorem manufacturing_sector_records :
  (∀ sheet : Sheet2022.DataFrame,
     Forall (λ r, code r ∉ Sheet2022.manufacturing)
       (FACILITY_SECTORS (clean_naics.run sheet))
     ∧ Forall (λ r, code r ∉ Sheet2022.manufacturing)
         (FACILITY_SECTORS (extract_naics.run sheet))
     ∧ filter (λ r, code r = "31-33") (FACILITY_SECTORS (clean_naics.run sheet))
       = (if decide (Exists (λ row, Pd.isin (Sheet2022.NAICS_Code row)
                                      Sheet2022.manufacturing) sheet)
          then [manufacturing_record] else [])
     ∧ filter (λ r, code r = "31-33") (FACILITY_SECTORS (extract_naics.run sheet))
       = (if decide (Exists (λ row, Pd.isin (Sheet2022.NAICS_Code row)
                                      Sheet2022.manufacturing) sheet)
          then [manufacturing_record] else []))
  ∧ (∀ gsheet : generate_naics.DataFrame,
       Forall (λ r, code r ≠ "31-33") (FACILITY_SECTORS (generate_naics.run gsheet))
       ∧ ∀ m, m ∈ Sheet2022.manufacturing ->
           (mkNAICSCode m "Manufacturing" 2 ""
              ∈ FACILITY_SECTORS (generate_naics.run gsheet)
            ↔ Exists (λ row, generate_naics.Level row = Some 2%Z
                             ∧ Py.take 2 (Pd.str (generate_naics.Code row)) = m)
                (generate_naics.load gsheet))).
Proof.
  split.
  - intros sheet. simpl.
    pose proof (clean_sectors_Permutation (Sheet2022.load sheet)) as Hclean.
    assert (extract_naics.emit_sectors (Sheet2022.load sheet)
            ≡ₚ (λ sector, mkNAICSCode (code sector) (escape (title sector)) 2 "")
               <$> (foldl extract_naics.sectors_step ([], false)
                      (Sheet2022.sectors_raw (Sheet2022.load sheet))).1)
      as Hextract by done.
    split_and!.
    + eapply sectors_no_parts; [apply clean_step_eq|exact Hclean].
    + eapply sectors_no_parts; [apply extract_step_eq|exact Hextract].
    + eapply sectors_combined; [apply clean_step_eq|exact Hclean].
    + eapply sectors_combined; [apply extract_step_eq|exact Hextract].
  - intros gsheet. simpl. split.
    + apply Forall_forall.
      intros r (k & titles & Hk & _ & ->)%elem_of_emit_sectors. simpl.
      intros ->. revert Hk. compute_done.
    + intros m Hm. rewrite elem_of_emit_sectors. split.
      * intros (k & titles & Hk & Hsome & [= -> _]).
        by apply sector_groups_is_Some.
      * intros Hrows.
        assert (m ∈ generate_naics.eligible_sectors) as Hel.
        { revert Hm. unfold Sheet2022.manufacturing.
          rewrite !elem_of_cons, elem_of_nil.
          intros [->|[->|[->|[]]]]; compute_done. }
        destruct (proj2 (sector_groups_is_Some (generate_naics.load gsheet) m))
          as [titles Hsome]; [done|].
        exists m, titles. split_and!; [done..|].
        revert Hm. unfold Sheet2022.manufacturing.
        rewrite !elem_of_cons, elem_of_nil.
        by intros [->|[->|[->|[]]]].
Qed.

Lemma manufacturing_sector_records_witness :
  filter (λ r, code r = "31-33") (FACILITY_SECTORS (clean_naics.run sample_sheet))
  = [manufacturing_record]
  ∧ mkNAICSCode "32" "Manufacturing" 2 ""
      ∈ FACILITY_SECTORS (generate_naics.run sample_level_sheet).
Proof.
  split.
  - exact (proj1 (proj2 (proj2 (proj1 manufacturing_sector_records sample_sheet)))).
  - apply (proj2 (proj2 manufacturing_sector_records sample_level_sheet) "32").
    + compute_done.
    + compute_done.
Defined.

(** ** Parents *)

(** C4, as the claim words it, fails: generate_naics.py leaves the
    parent of a manufacturing category at its two leading characters. *)
Lemma category_parent_counterexample :
  FACILITY_CATEGORIES
    (generate_naics.run [level_row 3 "311" "Food manufacturing"])
  = [mkNAICSCode "311" "Food manufacturing" 3 "31"]
  ∧ ¬ Forall (λ r, parent r = combined (Py.take 2 (code r)))
        (FACILITY_CATEGORIES
           (generate_naics.run [level_row 3 "311" "Food manufacturing"])).
Proof.
  split; [by vm_compute|].
  intros [H _]%Forall_cons. by vm_compute in H.
Qed.

(** C4 (amended): in every script the parent of a facility-type record
    is the first three characters of its code.  The parent of a category
    record is the first two characters of its code, with 31, 32 and 33
    replaced by 31-33 in clean_naics.py and extract_naics.py, and left as
    they are in generate_naics.py. *)
Theorem parents_from_codes :
  (∀ (sheet : Sheet2022.DataFrame) r,
     r ∈ FACILITY_TYPES (clean_naics.run sheet)
     ∨ r ∈ FACILITY_TYPES (extract_naics.run sheet) ->
     parent r = Py.take 3 (code r))
  ∧ (∀ (gsheet : generate_naics.DataFrame) r,
       r ∈ FACILITY_TYPES (generate_naics.run gsheet) ->
       parent r = Py.take 3 (code r))
  ∧ (∀ (sheet : Sheet2022.DataFrame) r,
       r ∈ FACILITY_CATEGORIES (clean_naics.run sheet)
       ∨ r ∈ FACILITY_CATEGORIES (extract_naics.run sheet) ->
       parent r = combined (Py.take 2 (code r)))
  ∧ (∀ (gsheet : generate_naics.DataFrame) r,
       r ∈ FACILITY_CATEGORIES (generate_naics.run gsheet) ->
       parent r = Py.take 2 (code r)).
Proof.
  split_and!.
  - intros sheet r [Hr|Hr]; simpl in Hr.
    + apply list_elem_of_fmap in Hr as (e & -> & He).
      apply elem_of_sort, list_elem_of_fmap in He as (row & -> & _). done.
    + by apply list_elem_of_fmap in Hr as (row & -> & _).
  - intros gsheet r Hr. simpl in Hr.
    by apply elem_of_emit_rows in Hr as (row & _ & _ & ->).
  - intros sheet r [Hr|Hr]; simpl in Hr.
    + apply list_elem_of_fmap in Hr as (e & -> & He).
      apply elem_of_sort, list_elem_of_fmap in He as (row & -> & _). done.
    + by apply list_elem_of_fmap in Hr as (row & -> & _).
  - intros gsheet r Hr. simpl in Hr.
    by apply elem_of_emit_rows in Hr as (row & _ & _ & ->).
Qed.

Lemma parents_from_codes_witness :
  parent (mkNAICSCode "311" "Food Manufacturing" 3 "31-33") = "31-33"
  ∧ parent (mkNAICSCode "311" "Food manufacturing" 3 "31") = "31".
Proof.
  destruct parents_from_codes as (_ & _ & Hfold & Hplain). split.
  - apply (Hfold sample_sheet (mkNAICSCode "311" "Food Manufacturing" 3 "31-33")).
    left. vm_compute. repeat constructor.
  - apply (Hplain sample_level_sheet
             (mkNAICSCode "311" "Food manufacturing" 3 "31")).
    vm_compute. repeat constructor.
Defined.

(** ** Referential closure *)

Lemma len_take n c : Py.len (Py.take n c) = (n `min` Py.len c)%nat.
Proof.
  unfold Py.len, Py.take. revert n.
  induction c as [|a c IH]; intros [|n]; simpl; try done.
  by rewrite IH.
Qed.

Lemma take_take m n c : (m <= n)%nat -> Py.take m (Py.take n c) = Py.take m c.
Proof.
  unfold Py.take. revert m n.
  induction c as [|a c IH]; intros [|m] [|n] Hmn; simpl; try done; try lia.
  f_equal. apply IH. lia.
Qed.

Section Closure.
Import Sheet2022.

Variable df : DataFrame.
Variables sectors categories_out types_out : list NAICSCode.
Hypothesis sectors_cover_rows : ∀ row,
  row ∈ sectors_raw df ->
  Exists (λ s, code s = combined (Pd.str (NAICS_Code row))) sectors.
Hypothesis categories_from_rows : ∀ c,
  c ∈ categories_out ->
  ∃ row, row ∈ categories df ∧ code c = Pd.str (NAICS_Code row)
         ∧ parent c = combined (Py.take 2 (code c)).
Hypothesis categories_cover_rows : ∀ row,
  row ∈ categories df ->
  Exists (λ c, code c = Pd.str (NAICS_Code row)) categories_out.
Hypothesis types_from_rows : ∀ t,
  t ∈ types_out ->
  ∃ row, row ∈ facility_types df ∧ code t = Pd.str (NAICS_Code row)
         ∧ parent t = Py.take 3 (code t).

Lemma closed_from_rows :
  hierarchy_complete df ->
  referentially_closed (mkTables sectors categories_out types_out).
Proof.
  intros [Hcat Htype]. rewrite Forall_forall in Hcat, Htype.
  split; apply Forall_forall; simpl.
  - intros c (row & Hrow & Hcode & ->)%categories_from_rows.
    destruct (proj1 (Exists_exists _ _) (Hcat _ Hrow)) as (r & Hr & Hrcode).
    apply elem_of_rows_of_length in Hrow
      as (_ & c0 & Hc0 & [Hlen Hel]%kept_code_true).
    rewrite Hc0 in Hrcode, Hcode. simpl in Hrcode, Hcode. rewrite Hcode.
    assert (r ∈ sectors_raw df) as Hraw.
    { apply elem_of_sectors_raw. split; [done|].
      exists (Py.take 2 c0). split_and!; [done| |done].
      rewrite len_take. lia. }
    apply sectors_cover_rows in Hraw. by rewrite Hrcode in Hraw.
  - intros t (row & Hrow & Hcode & ->)%types_from_rows.
    destruct (proj1 (Exists_exists _ _) (Htype _ Hrow)) as (r & Hr & Hrcode).
    apply elem_of_rows_of_length in Hrow
      as (_ & c0 & Hc0 & [Hlen Hel]%kept_code_true).
    rewrite Hc0 in Hrcode, Hcode. simpl in Hrcode, Hcode. rewrite Hcode.
    assert (r ∈ categories df) as Hkept.
    { apply elem_of_rows_of_length. split; [done|].
      exists (Py.take 3 c0). split; [done|]. apply kept_code_true. split.
      - rewrite len_take. lia.
      - by rewrite take_take by lia. }
    apply categories_cover_rows in Hkept. by rewrite Hrcode in Hkept.
Qed.
End Closure.

Lemma clean_closed sheet :
  hierarchy_complete (Sheet2022.load sheet) ->
  referentially_closed (clean_naics.run sheet).
Proof.
  apply closed_from_rows.
  - intros row. eapply sectors_cover;
      [apply clean_step_eq | apply clean_sectors_Permutation].
  - intros c (e & -> & He)%list_elem_of_fmap.
    apply elem_of_sort, list_elem_of_fmap in He as (row & -> & Hrow). eauto.
  - intros row Hrow. apply Exists_exists.
    eexists (mkNAICSCode _ _ 3 _). split; [|reflexivity].
    apply list_elem_of_fmap. eexists (clean_naics.mkEntry _ _ _). split; [done|].
    apply elem_of_sort, list_elem_of_fmap. by exists row.
  - intros t (e & -> & He)%list_elem_of_fmap.
    apply elem_of_sort, list_elem_of_fmap in He as (row & -> & Hrow). eauto.
Qed.

Lemma extract_closed sheet :
  hierarchy_complete (Sheet2022.load sheet) ->
  referentially_closed (extract_naics.run sheet).
Proof.
  apply closed_from_rows.
  - intros row. eapply sectors_cover; [apply extract_step_eq|done].
  - intros c (row & -> & Hrow)%list_elem_of_fmap. eauto.
  - intros row Hrow. apply Exists_exists.
    eexists (mkNAICSCode _ _ 3 _). split; [|reflexivity].
    apply list_elem_of_fmap. by exists row.
  - intros t (row & -> & Hrow)%list_elem_of_fmap. eauto.
Qed.

Lemma eligible_true c :
  generate_naics.eligible c = true ↔
  (2 <= Py.len c)%nat ∧ Py.take 2 c ∈ generate_naics.eligible_sectors.
Proof.
  unfold generate_naics.eligible. by rewrite andb_true_iff, !bool_decide_eq_true.
Qed.

Lemma generate_closed gsheet :
  level_hierarchy_complete (generate_naics.load gsheet) ->
  referentially_closed (generate_naics.run gsheet).
Proof.
  intros [Hcat Htype]. rewrite Forall_forall in Hcat, Htype.
  split; apply Forall_forall; simpl.
  - intros c (row & Hrow & Hel & ->)%elem_of_emit_rows. simpl.
    pose proof (Hcat _ Hrow Hel) as Hsector.
    apply eligible_true in Hel as [_ Hel].
    destruct (proj2 (sector_groups_is_Some (generate_naics.load gsheet)
                       (Py.take 2 (Pd.str (generate_naics.Code row)))))
      as [titles Hsome]; [done|].
    apply Exists_exists. eexists (mkNAICSCode _ _ 2 _). split; [|reflexivity].
    apply elem_of_emit_sectors. eauto.
  - intros t (row & Hrow & Hel & ->)%elem_of_emit_rows. simpl.
    pose proof (Htype _ Hrow Hel) as Hcategory.
    apply Exists_exists in Hcategory as (r & Hr & Hlevel & Hcode).
    apply eligible_true in Hel as [Hlen Hel].
    apply Exists_exists. eexists (mkNAICSCode _ _ 3 _). split; [|exact Hcode].
    apply elem_of_emit_rows. exists r. split_and!; [|.. |done].
    + by apply elem_of_of_level.
    + apply eligible_true. rewrite Hcode, len_take, take_take by lia.
      split; [lia|done].
Qed.

(** C5, as the claim words it, fails: a sheet with category rows and no
    sector row yields categories whose parent is in no sector record. *)
Lemma closure_counterexample :
  FACILITY_SECTORS (extract_naics.run orphan_sheet) = []
  ∧ parent <$> FACILITY_CATEGORIES (extract_naics.run orphan_sheet) = ["11"; "11"]
  ∧ ¬ referentially_closed (extract_naics.run orphan_sheet).
Proof.
  split_and!; [by vm_compute..|].
  intros [H _]. vm_compute in H.
  apply Forall_cons in H as [H _]. by apply Exists_nil in H.
Qed.

(** C5 (amended): the emitted tables are referentially closed whenever
    the loaded rows form a complete hierarchy, that is, each kept category
    row comes with a row for its sector and each kept facility-type row
    with a row for its category. *)
Theorem tables_closed_when_complete :
  (∀ sheet : Sheet2022.DataFrame,
     hierarchy_complete (Sheet2022.load sheet) ->
     referentially_closed (clean_naics.run sheet)
     ∧ referentially_closed (extract_naics.run sheet))
  ∧ (∀ gsheet : generate_naics.DataFrame,
       level_hierarchy_complete (generate_naics.load gsheet) ->
       referentially_closed (generate_naics.run gsheet)).
Proof.
  split.
  - intros sheet Hcomplete. split; [by apply clean_closed|by apply extract_closed].
  - intros gsheet. apply generate_closed.
Qed.

Lemma tables_closed_when_complete_witness :
  referentially_closed (clean_naics.run sample_sheet)
  ∧ referentially_closed (extract_naics.run sample_sheet)
  ∧ referentially_closed (generate_naics.run sample_level_sheet).
Proof.
  destruct tables_closed_when_complete as [Hsheet Hlevel].
  split_and!.
  - apply (Hsheet sample_sheet). compute_done.
  - apply (Hsheet sample_sheet). compute_done.
  - apply (Hlevel sample_level_sheet). compute_done.
Defined.

(** ** Order of the emitted tables *)

Lemma extract_orphans_unsorted :
  ¬ sorted_by_title (FACILITY_CATEGORIES (extract_naics.run orphan_sheet)).
Proof.
  intros H. vm_compute in H.
  apply Sorted_inv in H as [_ H]. apply HdRel_inv in H. discriminate.
Qed.

Lemma generate_orphans_unsorted :
  ¬ sorted_by_title (FACILITY_CATEGORIES (generate_naics.run orphan_level_sheet)).
Proof.
  intros H. vm_compute in H.
  apply Sorted_inv in H as [_ H]. apply HdRel_inv in H. discriminate.
Qed.

(** C7, as the claim words it, fails: two of the scripts, not one, write
    a table that is out of alphabetical order. *)
Lemma sorting_counterexample :
  title <$> FACILITY_CATEGORIES (extract_naics.run orphan_sheet)
  = ["Crop Production"; "Animal Production"]
  ∧ title <$> FACILITY_CATEGORIES (generate_naics.run orphan_level_sheet)
    = ["Crop production"; "Animal production"]
  ∧ ¬ sorted_by_title (FACILITY_CATEGORIES (extract_naics.run orphan_sheet))
  ∧ ¬ sorted_by_title
        (FACILITY_CATEGORIES (generate_naics.run orphan_level_sheet)).
Proof.
  split_and!; [by vm_compute..| |].
  - apply extract_orphans_unsorted.
  - apply generate_orphans_unsorted.
Qed.

(** C7 (amended): exactly one script sorts.  clean_naics.py sorts its
    sector list by cleaned title and writes it in that order with the
    titles escaped, and writes its category and facility-type tables in
    the order of their cleaned and escaped titles, across the whole table.
    extract_naics.py writes categories and facility types in sheet order
    and sectors as a subsequence of the sheet order.  generate_naics.py
    writes categories and facility types in sheet order and sectors in the
    order of the allow-list.  Neither of the two always writes its
    category table in alphabetical order. *)
Theorem only_clean_sorts :
  (∀ sheet : Sheet2022.DataFrame,
     sorted_by_title (clean_naics.sectors_list (Sheet2022.load sheet))
     ∧ FACILITY_SECTORS (clean_naics.run sheet)
       = (λ sector, mkNAICSCode (code sector) (escape (title sector)) 2 "")
         <$> clean_naics.sectors_list (Sheet2022.load sheet)
     ∧ sorted_by_title (FACILITY_CATEGORIES (clean_naics.run sheet))
     ∧ sorted_by_title (FACILITY_TYPES (clean_naics.run sheet)))
  ∧ (∀ sheet : Sheet2022.DataFrame,
       code <$> FACILITY_SECTORS (extract_naics.run sheet)
       `sublist_of`
       combined <$> filter (λ c, Py.len c = 2%nat
                                 ∧ c ∈ Sheet2022.eligible_sectors)
                      (code_column sheet)
       ∧ code <$> FACILITY_CATEGORIES (extract_naics.run sheet)
         = filter (λ c, kept_code 3 c) (code_column sheet)
       ∧ code <$> FACILITY_TYPES (extract_naics.run sheet)
         = filter (λ c, kept_code 6 c) (code_column sheet))
  ∧ (∀ gsheet : generate_naics.DataFrame,
       code <$> FACILITY_SECTORS (generate_naics.run gsheet)
       `sublist_of` generate_naics.eligible_sectors
       ∧ code <$> FACILITY_CATEGORIES (generate_naics.run gsheet)
         = filter (λ c, generate_naics.eligible c)
             ((λ row, Pd.str (generate_naics.Code row))
                <$> generate_naics.subsectors_df (generate_naics.load gsheet))
       ∧ code <$> FACILITY_TYPES (generate_naics.run gsheet)
         = filter (λ c, generate_naics.eligible c)
             ((λ row, Pd.str (generate_naics.Code row))
                <$> generate_naics.industries_df (generate_naics.load gsheet)))
  ∧ ¬ (∀ sheet : Sheet2022.DataFrame,
         sorted_by_title (FACILITY_CATEGORIES (extract_naics.run sheet)))
  ∧ ¬ (∀ gsheet : generate_naics.DataFrame,
         sorted_by_title (FACILITY_CATEGORIES (generate_naics.run gsheet))).
Proof.
  split_and!;
    [| | |intros H; apply extract_orphans_unsorted, H
         |intros H; apply generate_orphans_unsorted, H].
  - intros sheet. split_and!.
    + apply (sort_Sorted title).
    + done.
    + simpl. unfold clean_naics.emit_categories, clean_naics.categories_list.
      eapply Sorted_fmap; [|apply (sort_Sorted clean_naics.entry_title)]. done.
    + simpl. unfold clean_naics.emit_facility_types, clean_naics.facility_types_list.
      eapply Sorted_fmap; [|apply (sort_Sorted clean_naics.entry_title)]. done.
  - intros sheet. simpl. split_and!.
    + unfold extract_naics.emit_sectors, extract_naics.sectors_list.
      rewrite <- list_fmap_compose.
      apply (sectors_order extract_naics.sectors_step _ extract_step_eq).
    + unfold extract_naics.emit_categories. rewrite <- list_fmap_compose.
      apply codes_rows_of_length.
    + unfold extract_naics.emit_facility_types. rewrite <- list_fmap_compose.
      apply codes_rows_of_length.
  - intros gsheet. simpl. split_and!.
    + apply emit_sectors_order.
    + apply emit_rows_order.
    + apply emit_rows_order.
Qed.

(** ** Rows without a code *)

Section MissingCode.
Import generate_naics.

Local Abbreviation has_code := (λ row : Row, Code row ≠ None).




End MissingCode.



(** ** Replacement of one character and the escaping of titles *)

Lemma replace_char q new c s :
  Py.replace (String q "") new (String c s)
  = if Ascii.ascii_dec q c
    then new +:+ Py.replace (String q "") new s
    else String c (Py.replace (String q "") new s).
Proof.
  unfold Py.replace. cbn [Py.replace_from String.prefix String.length].
  destruct (Ascii.ascii_dec q c); [|done]. by destruct s.
Qed.

Lemma string_length_app (s1 s2 : string) :
  String.length (s1 +:+ s2) = (String.length s1 + String.length s2)%nat.
Proof.
  induction s1 as [|c s1 IH]; [done|].
  change (S (String.length (s1 +:+ s2))
          = S (String.length s1 + String.length s2)).
  by rewrite IH.
Qed.

Section OneCharacter.
Variable q : ascii.
Hypothesis q_not_backslash : q ≠ "092"%char.

Local Abbreviation put_backslash :=
  (Py.replace (String q "") (String "092" (String q ""))).

Lemma put_backslash_cons c s :
  put_backslash (String c s)
  = if Ascii.ascii_dec q c
    then String "092" (String q (put_backslash s))
    else String c (put_backslash s).
Proof. rewrite replace_char. by destruct (Ascii.ascii_dec q c). Qed.

Lemma put_backslash_absent s : occurs q s = false -> put_backslash s = s.
Proof.
  induction s as [|c s IH]; [done|]. cbn [occurs].
  intros [Hc Hs]%orb_false_iff. rewrite put_backslash_cons.
  destruct (Ascii.ascii_dec q c) as [<-|_]; [by rewrite Ascii.eqb_refl in Hc|].
  by rewrite IH.
Qed.

Lemma put_backslash_length s :
  String.length (put_backslash s)
  = (String.length s + occurrences q s)%nat.
Proof.
  induction s as [|c s IH]; [done|]. rewrite put_backslash_cons.
  destruct (Ascii.ascii_dec q c) as [<-|Hne];
    cbn [String.length occurrences]; rewrite IH.
  - rewrite Ascii.eqb_refl. lia.
  - rewrite (proj2 (Ascii.eqb_neq _ _) (not_eq_sym Hne)). lia.
Qed.

Lemma put_backslash_guarded after s : guarded q after (put_backslash s) = true.
Proof.
  revert after. induction s as [|c s IH]; intros after; [done|].
  rewrite put_backslash_cons.
  destruct (Ascii.ascii_dec q c) as [<-|Hne]; cbn [guarded].
  - rewrite (proj2 (Ascii.eqb_neq _ _) (not_eq_sym q_not_backslash)).
    rewrite Ascii.eqb_refl, (proj2 (Ascii.eqb_neq _ _) q_not_backslash).
    apply IH.
  - rewrite (proj2 (Ascii.eqb_neq _ _) (not_eq_sym Hne)). apply IH.
Qed.

(** The replacement leaves the other characters and what stands in
    front of them alone. *)
Lemma put_backslash_occurrences p s :
  p ≠ q -> p ≠ "092"%char ->
  occurrences p (put_backslash s) = occurrences p s.
Proof.
  intros Hpq Hbs. induction s as [|c s IH]; [done|].
  rewrite put_backslash_cons.
  destruct (Ascii.ascii_dec q c) as [<-|Hne]; cbn [occurrences]; rewrite IH;
    [|done].
  rewrite (proj2 (Ascii.eqb_neq _ _) (not_eq_sym Hbs)).
  by rewrite (proj2 (Ascii.eqb_neq _ _) (not_eq_sym Hpq)).
Qed.

Lemma put_backslash_occurs p s :
  p ≠ q -> p ≠ "092"%char -> occurs p (put_backslash s) = occurs p s.
Proof.
  intros Hpq Hbs. induction s as [|c s IH]; [done|].
  rewrite put_backslash_cons.
  destruct (Ascii.ascii_dec q c) as [<-|Hne]; cbn [occurs]; rewrite IH;
    [|done].
  rewrite (proj2 (Ascii.eqb_neq _ _) (not_eq_sym Hbs)).
  by rewrite (proj2 (Ascii.eqb_neq _ _) (not_eq_sym Hpq)).
Qed.

Lemma put_backslash_keeps_guarded p after s :
  p ≠ q -> p ≠ "092"%char ->
  guarded p after s = true -> guarded p after (put_backslash s) = true.
Proof.
  intros Hpq Hbs. revert after.
  induction s as [|c s IH]; intros after; [done|].
  rewrite put_backslash_cons. cbn [guarded].
  intros [Hc Hs]%andb_true_iff.
  destruct (Ascii.ascii_dec q c) as [<-|Hne]; cbn [guarded].
  - rewrite (proj2 (Ascii.eqb_neq _ _) (not_eq_sym Hbs)).
    rewrite (proj2 (Ascii.eqb_neq _ _) (not_eq_sym Hpq)).
    by rewrite (proj2 (Ascii.eqb_neq _ _) q_not_backslash) in Hs |- *; apply IH.
  - rewrite Hc. by apply IH.
Qed.
End OneCharacter.

(** X1: a title without quotes is written as it is; escaping makes the
    title longer by one character for each quote it holds; and in the
    escaped title every double quote and every single quote stands right
    after a backslash. *)
Theorem escape_guards_quotes :
  (∀ t, occurs "034" t = false -> occurs "039" t = false -> escape t = t)
  ∧ (∀ t, String.length (escape t)
          = (String.length t + occurrences "034" t + occurrences "039" t)%nat)
  ∧ (∀ t, guarded "034" false (escape t) = true
          ∧ guarded "039" false (escape t) = true).
Proof.
  unfold escape, double_quote, single_quote, backslash. split_and!.
  - intros t Hd Hs.
    change (String "092" "" +:+ String "034" "")
      with (String "092" (String "034" "")).
    change (String "092" "" +:+ String "039" "")
      with (String "092" (String "039" "")).
    rewrite (put_backslash_absent "034" t Hd).
    by apply put_backslash_absent.
  - intros t.
    change (String "092" "" +:+ String "034" "")
      with (String "092" (String "034" "")).
    change (String "092" "" +:+ String "039" "")
      with (String "092" (String "039" "")).
    rewrite put_backslash_length, put_backslash_length.
    by rewrite put_backslash_occurrences.
  - intros t.
    change (String "092" "" +:+ String "034" "")
      with (String "092" (String "034" "")).
    change (String "092" "" +:+ String "039" "")
      with (String "092" (String "039" "")).
    split.
    + apply put_backslash_keeps_guarded; [done..|].
      by apply put_backslash_guarded.
    + by apply put_backslash_guarded.
Qed.

Lemma escape_guards_quotes_witness :
  escape "Crop Production" = "Crop Production".
Proof.
  exact (proj1 escape_guards_quotes "Crop Production" eq_refl eq_refl).
Defined.

(** ** More on clean_title *)

Section TitleFacts.
Import Py.

Lemma lstrip_starts s : starts_with_space (lstrip s) = false.
Proof.
  induction s as [|c s IH]; [done|]. simpl.
  destruct (is_space c) eqn:Hc; [done|]. simpl. done.
Qed.

Lemma rstrip_ends s : ends_with_space (rstrip s) = false.
Proof.
  induction s as [|c s IH]; [done|]. simpl.
  destruct (rstrip s) as [|d r]; [|done].
  by destruct (is_space c) eqn:Hc.
Qed.

Lemma rstrip_starts s :
  starts_with_space s = false -> starts_with_space (rstrip s) = false.
Proof.
  destruct s as [|c s]; [done|]. simpl. intros Hc.
  destruct (rstrip s); [by rewrite Hc|done].
Qed.

Lemma lstrip_length s : (String.length (lstrip s) <= String.length s)%nat.
Proof.
  induction s as [|c s IH]; [done|]. simpl.
  destruct (is_space c); simpl; lia.
Qed.

Lemma rstrip_length s : (String.length (rstrip s) <= String.length s)%nat.
Proof.
  induction s as [|c s IH]; [done|]. simpl.
  destruct (rstrip s) as [|d r]; [destruct (is_space c)|]; simpl in *; lia.
Qed.

Lemma sub_marker_length s :
  (String.length (sub_marker s) <= String.length s)%nat.
Proof.
  destruct (ends_with_marker s) eqn:Hs.
  - apply ends_with_marker_split in Hs as (body & ws & -> & Hws).
    rewrite sub_marker_marked, string_length_app by done. lia.
  - by rewrite sub_marker_unmarked.
Qed.

Lemma lstrip_all_space s : all_space s = true -> lstrip s = "".
Proof.
  induction s as [|c s IH]; [done|]. simpl.
  intros [Hc Hs]%andb_true_iff. rewrite Hc. by apply IH.
Qed.

Lemma all_space_unmarked s : all_space s = true -> ends_with_marker s = false.
Proof.
  induction s as [|c s IH]; [done|]. simpl.
  intros [Hc Hs]%andb_true_iff. rewrite (IH Hs), orb_false_r.
  destruct (Ascii.eqb c "T") eqn:HT; [|done].
  apply Ascii.eqb_eq in HT as ->. done.
Qed.
End TitleFacts.

(** X2: a cleaned title never starts or ends with whitespace and is never
    longer than the raw title; a raw title made of whitespace only, or of
    whitespace around a lone marker, is cleaned to the empty text. *)
Theorem clean_title_trimmed :
  (∀ s, starts_with_space (clean_title s) = false
        ∧ ends_with_space (clean_title s) = false
        ∧ (String.length (clean_title s) <= String.length s)%nat)
  ∧ (∀ s, Py.all_space s = true -> clean_title s = "")
  ∧ (∀ ws1 ws2, Py.all_space ws1 = true -> Py.all_space ws2 = true ->
       clean_title (ws1 +:+ String "T" ws2) = "").
Proof.
  unfold clean_title, Py.strip. split_and!.
  - intros s. split_and!.
    + apply rstrip_starts, lstrip_starts.
    + apply rstrip_ends.
    + pose proof (rstrip_length (Py.lstrip (Py.sub_marker s))).
      pose proof (lstrip_length (Py.sub_marker s)).
      pose proof (sub_marker_length s). lia.
  - intros s Hs.
    rewrite sub_marker_unmarked by (by apply all_space_unmarked).
    by rewrite lstrip_all_space.
  - intros ws1 ws2 H1 H2. rewrite sub_marker_marked by done.
    by rewrite lstrip_all_space.
Qed.

Lemma clean_title_trimmed_witness :
  clean_title "   " = "" ∧ clean_title (" " +:+ String "T" "  ") = "".
Proof.
  destruct clean_title_trimmed as (_ & Hblank & Hlone). split.
  - exact (Hblank "   " eq_refl).
  - exact (Hlone " " "  " eq_refl eq_refl).
Defined.

(** ** The removal of [.0] in generate_naics.py *)

Lemma drop_point_zero_cons c s :
  c ≠ "."%char ->
  Py.replace ".0" "" (String c s) = String c (Py.replace ".0" "" s).
Proof.
  intros Hc. unfold Py.replace. cbn [Py.replace_from String.prefix].
  by destruct (Ascii.ascii_dec "." c) as [<-|_].
Qed.

Lemma string_app_empty_r (s : string) : s +:+ "" = s.
Proof.
  induction s as [|x s IH]; [done|].
  change (String x (s +:+ "") = String x s). by rewrite IH.
Qed.

(** X3: the code column is rid of the text [.0] wherever it first
    follows a run of characters without a point, not only at the end: a
    code without a point is kept, a code written as a float with one zero
    decimal loses that decimal, and a row with such a code is loaded with
    the integer form of the code. *)
Theorem point_zero_removed :
  (∀ a b, occurs "." a = false ->
     Py.replace ".0" "" (a +:+ ".0" +:+ b) = a +:+ Py.replace ".0" "" b)
  ∧ (∀ c, occurs "." c = false -> Py.replace ".0" "" c = c)
  ∧ (∀ lvl t c, occurs "." c = false ->
       generate_naics.load [generate_naics.mkRow lvl (Some (c +:+ ".0")) t]
       = [generate_naics.mkRow lvl (Some c) t]).
Proof.
  assert (∀ c, occurs "." c = false -> Py.replace ".0" "" c = c) as Hkeep.
  { induction c as [|x c IH]; [done|]. cbn [occurs].
    intros [Hx Hc]%orb_false_iff. apply Ascii.eqb_neq in Hx.
    rewrite drop_point_zero_cons by done. by rewrite IH. }
  assert (∀ a b, occurs "." a = false ->
            Py.replace ".0" "" (a +:+ ".0" +:+ b)
            = a +:+ Py.replace ".0" "" b) as Hdrop.
  { intros a b. induction a as [|x a IH].
    { intros _. change ("" +:+ ".0" +:+ b) with (String "." (String "0" b)).
      unfold Py.replace. by destruct b. }
    cbn [occurs].
    intros [Hx Ha]%orb_false_iff. apply Ascii.eqb_neq in Hx.
    change (String x a +:+ ".0" +:+ b) with (String x (a +:+ ".0" +:+ b)).
    rewrite drop_point_zero_cons by done. by rewrite IH. }
  split_and!; [done..|].
  intros lvl t c Hc. rewrite load_eq. simpl.
  pose proof (Hdrop c "" Hc) as H.
  change (c +:+ ".0" +:+ "") with (c +:+ ".0") in H.
  change (Py.replace ".0" "" "") with "" in H.
  by rewrite H, string_app_empty_r.
Qed.

Lemma point_zero_removed_witness :
  Py.replace ".0" "" "311" = "311"
  ∧ generate_naics.load
      [generate_naics.mkRow (Some 3%Z) (Some ("311" +:+ ".0")) (Some "Food")]
    = [generate_naics.mkRow (Some 3%Z) (Some "311") (Some "Food")].
Proof.
  destruct point_zero_removed as (_ & Hkeep & Hload). split.
  - exact (Hkeep "311" eq_refl).
  - exact (Hload (Some 3%Z) (Some "Food") "311" eq_refl).
Defined.

(** ** More on the generated helpers *)

Section LookupFacts.
Import TS.

Lemma elem_of_filter_ test (l : list NAICSCode) r :
  r ∈ filter_ test l ↔ r ∈ l ∧ test r = true.
Proof. unfold filter_. by rewrite !list_elem_of_In, filter_In. Qed.

Lemma filter__sublist test (l : list NAICSCode) : filter_ test l `sublist_of` l.
Proof.
  unfold filter_. induction l as [|x l IH]; simpl; [done|].
  destruct (test x); by constructor.
Qed.

Lemma insert_by_Permutation compare x l :
  Sorted.insert_by compare x l ≡ₚ x :: l.
Proof.
  induction l as [|y l IH]; simpl; [done|].
  destruct (compare y x <? 0)%Z; [|done].
  rewrite IH. apply Permutation_swap.
Qed.

Lemma sort__Permutation compare l : Sorted.sort_ compare l ≡ₚ l.
Proof.
  unfold Sorted.sort_. induction l as [|x l IH]; simpl; [done|].
  by rewrite insert_by_Permutation, IH.
Qed.

Section Ordered.
Variable compare : NAICSCode -> NAICSCode -> Z.
Hypothesis compare_antisym : ∀ a b, (0 <= compare a b)%Z -> (compare b a <= 0)%Z.

Local Abbreviation le := (λ a b, (compare a b <= 0)%Z).

Lemma insert_by_HdRel a x l :
  le a x -> HdRel le a l -> HdRel le a (Sorted.insert_by compare x l).
Proof.
  intros Hax Hal. destruct l as [|y l]; simpl; [by constructor|].
  inversion_clear Hal. destruct (compare y x <? 0)%Z; by constructor.
Qed.

Lemma insert_by_Sorted x l :
  Sorted le l -> Sorted le (Sorted.insert_by compare x l).
Proof.
  induction 1 as [|y l Hl IH Hy]; simpl; [by repeat constructor|].
  destruct (Z.ltb_spec (compare y x) 0).
  - constructor; [done|]. apply insert_by_HdRel; [lia|done].
  - constructor; [by constructor|]. constructor. by apply compare_antisym.
Qed.

Lemma sort__Sorted l : Sorted le (Sorted.sort_ compare l).
Proof.
  unfold Sorted.sort_. induction l as [|x l IH]; simpl; [constructor|].
  by apply insert_by_Sorted.
Qed.
End Ordered.

Lemma find_None_no_code k table :
  find (λ y, strict_eq (code y) (Some k)) table = None -> no_code k table.
Proof.
  unfold find, no_code. induction table as [|y table IH]; simpl; [done|].
  destruct (strict_eq (code y) (Some k)) eqn:E; [done|].
  intros H. constructor; [|by apply IH].
  intros Hy. apply strict_eq_true in Hy. congruence.
Qed.

Lemma find_Some_code k table x :
  find (λ y, strict_eq (code y) (Some k)) table = Some x ->
  x ∈ table ∧ code x = k.
Proof.
  unfold find. intros [Hin Hx]%find_some.
  by rewrite list_elem_of_In, <- strict_eq_true.
Qed.

Lemma Exists_find_code k table :
  Exists (λ y, code y = k) table ->
  ∃ x, find (λ y, strict_eq (code y) (Some k)) table = Some x.
Proof.
  intros H.
  destruct (find (λ y, strict_eq (code y) (Some k)) table) as [x|] eqn:E;
    [by exists x|].
  apply find_None_no_code in E. unfold no_code in E.
  rewrite Forall_forall in E. apply Exists_exists in H as (y & Hy & Hk).
  by destruct (E y Hy).
Qed.

(** The resolver returns exactly on the valid combinations. *)
Lemma resolver_returns tb sectorCode categoryCode typeCode :
  generateNAICSCode sectorCode categoryCode typeCode tb
    = (Returns typeCode, tb)
  ↔ valid_combination tb sectorCode categoryCode typeCode.
Proof.
  unfold generateNAICSCode, bind, read, ret, throw, not_, valid_combination.
  set (test_s := λ s, strict_eq (code s) (Some sectorCode)).
  set (test_c := λ c, strict_eq (code c) (Some categoryCode)
                      && strict_eq (parent c) (Some sectorCode)).
  set (test_t := λ t, strict_eq (code t) (Some typeCode)
                      && strict_eq (parent t) (Some categoryCode)).
  rewrite <- (find_truthy test_s _ (FACILITY_SECTORS tb)).
  2:{ intros x. apply strict_eq_true. }
  rewrite <- (find_truthy test_c _ (FACILITY_CATEGORIES tb)).
  2:{ intros x. unfold test_c. by rewrite andb_true_iff, !strict_eq_true. }
  rewrite <- (find_truthy test_t _ (FACILITY_TYPES tb)).
  2:{ intros x. unfold test_t. by rewrite andb_true_iff, !strict_eq_true. }
  generalize (truthy (find test_s (FACILITY_SECTORS tb)))
    (truthy (find test_c (FACILITY_CATEGORIES tb)))
    (truthy (find test_t (FACILITY_TYPES tb))).
  intros [] [] []; simpl; intuition congruence.
Qed.

Lemma Exists_filter_ (P : NAICSCode -> Prop) test (l : list NAICSCode) :
  Exists P (filter_ test l) ↔ Exists (λ r, P r ∧ test r = true) l.
Proof.
  rewrite !Exists_exists. split.
  - intros (r & [Hin Ht]%elem_of_filter_ & HP). eauto.
  - intros (r & Hin & HP & Ht). exists r. by rewrite elem_of_filter_.
Qed.
End LookupFacts.

Lemma code_point_compare_antisym a b :
  (0 <= code_point_compare a b)%Z -> (code_point_compare b a <= 0)%Z.
Proof.
  unfold code_point_compare. rewrite (String.compare_antisym a b).
  destruct (String.compare b a); simpl; lia.
Qed.

Lemma occurs_app c (a b : string) : occurs c (a +:+ b) = occurs c a || occurs c b.
Proof.
  induction a as [|x a IH]; [done|].
  change (occurs c (String x (a +:+ b))
          = occurs c (String x a) || occurs c b).
  cbn [occurs]. by rewrite IH, orb_assoc.
Qed.

Lemma description_not_fallback s c t : description s c t ≠ "Unknown NAICS code".
Proof.
  intros H. apply (f_equal (occurs ">")) in H. unfold description in H.
  rewrite !occurs_app in H. vm_compute (occurs ">" "Unknown NAICS code") in H.
  change (occurs ">" " > ") with true in H.
  by rewrite orb_true_r in H.
Qed.

(** X4: a lookup returns exactly the records of its table whose parent
    is the given code; the plain form returns them in the order of the
    table, and the sorted form returns the same records, reordered at
    most, whatever the collation. *)
Theorem lookups_select_by_parent localeCompare tb k :
  (∃ found,
     TS.Plain.getFacilityCategoriesBySector k tb = (TS.Returns found, tb)
     ∧ found `sublist_of` FACILITY_CATEGORIES tb
     ∧ (∀ r, r ∈ found ↔ r ∈ FACILITY_CATEGORIES tb ∧ parent r = k)
     ∧ ∃ sorted,
         TS.Sorted.getFacilityCategoriesBySector localeCompare k tb
         = (TS.Returns sorted, tb)
         ∧ sorted ≡ₚ found)
  ∧ (∃ found,
       TS.Plain.getFacilityTypesByCategory k tb = (TS.Returns found, tb)
       ∧ found `sublist_of` FACILITY_TYPES tb
       ∧ (∀ r, r ∈ found ↔ r ∈ FACILITY_TYPES tb ∧ parent r = k)
       ∧ ∃ sorted,
           TS.Sorted.getFacilityTypesByCategory localeCompare k tb
           = (TS.Returns sorted, tb)
           ∧ sorted ≡ₚ found).
Proof.
  unfold TS.Plain.getFacilityCategoriesBySector,
    TS.Plain.getFacilityTypesByCategory,
    TS.Sorted.getFacilityCategoriesBySector,
    TS.Sorted.getFacilityTypesByCategory, TS.bind, TS.read, TS.ret.
  split; eexists; (split; [reflexivity|]); split_and!.
  - apply filter__sublist.
  - intros r. by rewrite elem_of_filter_, strict_eq_true.
  - eexists. split; [reflexivity|]. apply sort__Permutation.
  - apply filter__sublist.
  - intros r. by rewrite elem_of_filter_, strict_eq_true.
  - eexists. split; [reflexivity|]. apply sort__Permutation.
Qed.

(** X5: when the collation never ranks two titles each above the other,
    the sorted lookups return their records in the order of the
    collation: no record is followed by one whose title compares
    smaller. *)
Theorem sorted_lookups_ordered localeCompare tb k found :
  (∀ a b, (0 <= localeCompare a b)%Z -> (localeCompare b a <= 0)%Z) ->
  TS.Sorted.getFacilityCategoriesBySector localeCompare k tb
    = (TS.Returns found, tb)
  ∨ TS.Sorted.getFacilityTypesByCategory localeCompare k tb
    = (TS.Returns found, tb) ->
  Sorted (λ a b, (localeCompare (title a) (title b) <= 0)%Z) found.
Proof.
  intros Hanti.
  unfold TS.Sorted.getFacilityCategoriesBySector,
    TS.Sorted.getFacilityTypesByCategory, TS.bind, TS.read, TS.ret.
  intros [[= <-]|[= <-]];
    apply (sort__Sorted (TS.Sorted.by_title localeCompare));
    intros a b; apply Hanti.
Qed.

Lemma sorted_lookups_ordered_witness :
  Sorted (λ a b, (code_point_compare (title a) (title b) <= 0)%Z)
    [mkNAICSCode "112" "Animal Production" 3 "11";
     mkNAICSCode "111" "Crop Production" 3 "11"].
Proof.
  apply (sorted_lookups_ordered code_point_compare
           (mkTables [] [mkNAICSCode "111" "Crop Production" 3 "11";
                         mkNAICSCode "112" "Animal Production" 3 "11"] [])
           "11").
  - apply code_point_compare_antisym.
  - left. reflexivity.
Defined.

(** X6: the resolver accepts a triple exactly when the triple can be
    reached through the lookups: the sector exists, the category is among
    the categories looked up for that sector, and the type is among the
    types looked up for that category. *)
Theorem resolver_follows_lookups tb sectorCode categoryCode typeCode :
  TS.generateNAICSCode sectorCode categoryCode typeCode tb
    = (TS.Returns typeCode, tb)
  ↔ Exists (λ s, code s = sectorCode) (FACILITY_SECTORS tb)
    ∧ (∃ found,
         TS.Plain.getFacilityCategoriesBySector sectorCode tb
         = (TS.Returns found, tb)
         ∧ Exists (λ c, code c = categoryCode) found)
    ∧ (∃ found,
         TS.Plain.getFacilityTypesByCategory categoryCode tb
         = (TS.Returns found, tb)
         ∧ Exists (λ t, code t = typeCode) found).
Proof.
  rewrite resolver_returns. unfold valid_combination.
  unfold TS.Plain.getFacilityCategoriesBySector,
    TS.Plain.getFacilityTypesByCategory, TS.bind, TS.read, TS.ret.
  split.
  - intros (Hs & Hc & Ht). split_and!; [done|..].
    + eexists. split; [reflexivity|]. apply Exists_filter_.
      eapply Exists_impl; [exact Hc|]. intros c [? ?].
      by rewrite strict_eq_true.
    + eexists. split; [reflexivity|]. apply Exists_filter_.
      eapply Exists_impl; [exact Ht|]. intros t [? ?].
      by rewrite strict_eq_true.
  - intros (Hs & (fc & [= <-] & Hc) & (ft & [= <-] & Ht)). split_and!; [done|..].
    + apply Exists_filter_ in Hc. eapply Exists_impl; [exact Hc|].
      intros c [? ?%strict_eq_true]. done.
    + apply Exists_filter_ in Ht. eapply Exists_impl; [exact Ht|].
      intros t [? ?%strict_eq_true]. done.
Qed.

(** X7: on referentially closed tables the helpers work for every
    facility type of the table: its code is described by the titles of a
    sector, a category and a type of the tables, linked by their parents,
    and the resolver returns the code for that sector and category. *)
Theorem closed_tables_resolve tb t :
  referentially_closed tb ->
  t ∈ FACILITY_TYPES tb ->
  ∃ s c t',
    s ∈ FACILITY_SECTORS tb ∧ c ∈ FACILITY_CATEGORIES tb
    ∧ t' ∈ FACILITY_TYPES tb
    ∧ code t' = code t ∧ code c = parent t' ∧ code s = parent c
    ∧ TS.getNAICSDescription (code t) tb
      = (TS.Returns (description (title s) (title c) (title t')), tb)
    ∧ TS.generateNAICSCode (code s) (code c) (code t) tb
      = (TS.Returns (code t), tb).
Proof.
  intros [Hcat Htype] Ht. rewrite Forall_forall in Hcat, Htype.
  destruct (Exists_find_code (code t) (FACILITY_TYPES tb)) as [t' Hfind_t].
  { apply Exists_exists. by exists t. }
  destruct (find_Some_code _ _ _ Hfind_t) as [Ht' Hcode_t].
  destruct (Exists_find_code _ _ (Htype _ Ht')) as [c Hfind_c].
  destruct (find_Some_code _ _ _ Hfind_c) as [Hc Hcode_c].
  destruct (Exists_find_code _ _ (Hcat _ Hc)) as [s Hfind_s].
  destruct (find_Some_code _ _ _ Hfind_s) as [Hs Hcode_s].
  exists s, c, t'. split_and!; try done.
  - unfold TS.getNAICSDescription, TS.bind, TS.read, TS.ret.
    rewrite Hfind_t. simpl. rewrite Hfind_c. simpl. by rewrite Hfind_s.
  - apply resolver_returns. split_and!; apply Exists_exists.
    + by exists s.
    + exists c. by rewrite Hcode_s.
    + exists t'. by rewrite Hcode_c.
Qed.

Lemma closed_tables_resolve_witness :
  ∃ s c t',
    s ∈ FACILITY_SECTORS (clean_naics.run sample_sheet)
    ∧ c ∈ FACILITY_CATEGORIES (clean_naics.run sample_sheet)
    ∧ t' ∈ FACILITY_TYPES (clean_naics.run sample_sheet)
    ∧ code t' = "111110" ∧ code c = parent t' ∧ code s = parent c
    ∧ TS.getNAICSDescription "111110" (clean_naics.run sample_sheet)
      = (TS.Returns (description (title s) (title c) (title t')),
         clean_naics.run sample_sheet)
    ∧ TS.generateNAICSCode (code s) (code c) "111110"
        (clean_naics.run sample_sheet)
      = (TS.Returns "111110", clean_naics.run sample_sheet).
Proof.
  apply (closed_tables_resolve (clean_naics.run sample_sheet)
           (mkNAICSCode "111110" "Soybean Farming" 6 "111")).
  - compute_done.
  - vm_compute. repeat constructor.
Defined.

(** X8: the fallback text is a reliable signal: the description helper
    returns it exactly when no facility-type record has the code. *)
Theorem fallback_iff_unknown tb naicsCode :
  TS.getNAICSDescription naicsCode tb = (TS.Returns "Unknown NAICS code", tb)
  ↔ no_code naicsCode (FACILITY_TYPES tb).
Proof.
  split.
  - unfold TS.getNAICSDescription, TS.bind, TS.read, TS.ret.
    destruct (TS.find _ (FACILITY_TYPES tb)) as [t|] eqn:Hfind.
    + simpl. intros [= H]. by apply description_not_fallback in H.
    + intros _. by apply find_None_no_code.
  - intros Hnone.
    unfold TS.getNAICSDescription, TS.bind, TS.read, TS.ret.
    by rewrite (find_no_code _ _ Hnone).
Qed.

(** ** What the scripts keep *)

Section KeptRecords.
Import Sheet2022.

Lemma combined_code_of_eligible c :
  c ∈ eligible_sectors -> c ∉ manufacturing -> c ∈ combined_sector_codes.
Proof.
  unfold eligible_sectors, manufacturing, combined_sector_codes.
  rewrite !elem_of_cons, !elem_of_nil. intuition auto.
Qed.

Section OneLoop.
Variable step : list NAICSCode * bool -> Row -> list NAICSCode * bool.
Variable title_of : Row -> string.
Hypothesis step_eq : ∀ st row,
  step st row =
  if decide (Pd.str (NAICS_Code row) ∈ manufacturing) then
    if negb st.2 then (st.1 ++ [manufacturing_record], true) else st
  else (st.1 ++ [mkNAICSCode (Pd.str (NAICS_Code row)) (title_of row) 2 ""],
        st.2).
Variable df : DataFrame.
Variable sectors : list NAICSCode.
Hypothesis sectors_eq :
  sectors
  ≡ₚ (λ sector, mkNAICSCode (code sector) (escape (title sector)) 2 "")
     <$> (foldl step ([], false) (sectors_raw df)).1.

Lemma sectors_allow_listed r :
  r ∈ sectors ->
  code r ∈ combined_sector_codes ∧ level r = 2%Z ∧ parent r = "".
Proof.
  rewrite sectors_eq. intros (r' & -> & Hr')%list_elem_of_fmap. simpl.
  split; [|done].
  apply (loop_records step title_of step_eq) in Hr'
    as [->|(row & Hrow & Hm & ->)]; simpl; [compute_done|].
  apply elem_of_sectors_raw in Hrow as (_ & c & Hc & _ & Hel).
  rewrite Hc in Hm |- *. by apply combined_code_of_eligible.
Qed.
End OneLoop.

Lemma kept_row_code n df row :
  row ∈ rows_of_length n df ->
  Py.len (Pd.str (NAICS_Code row)) = n
  ∧ Py.take 2 (Pd.str (NAICS_Code row)) ∈ eligible_sectors.
Proof.
  intros (_ & c & -> & Hk%kept_code_true)%elem_of_rows_of_length. done.
Qed.
End KeptRecords.

(** X9: no script writes a record outside the allow-list.  The sector
    codes of clean_naics.py and extract_naics.py are among 11, 21, 22, 23,
    31-33, 48 and 56, those of generate_naics.py among its allow-list, and
    the code of every category and facility-type record starts with two
    characters of the allow-list. *)
Theorem only_allow_listed :
  (∀ (sheet : Sheet2022.DataFrame) r,
     r ∈ FACILITY_SECTORS (clean_naics.run sheet)
     ∨ r ∈ FACILITY_SECTORS (extract_naics.run sheet) ->
     code r ∈ combined_sector_codes)
  ∧ (∀ (sheet : Sheet2022.DataFrame) r,
       r ∈ FACILITY_CATEGORIES (clean_naics.run sheet)
       ∨ r ∈ FACILITY_TYPES (clean_naics.run sheet)
       ∨ r ∈ FACILITY_CATEGORIES (extract_naics.run sheet)
       ∨ r ∈ FACILITY_TYPES (extract_naics.run sheet) ->
       Py.take 2 (code r) ∈ Sheet2022.eligible_sectors)
  ∧ (∀ (gsheet : generate_naics.DataFrame) r,
       r ∈ FACILITY_SECTORS (generate_naics.run gsheet) ->
       code r ∈ generate_naics.eligible_sectors)
  ∧ (∀ (gsheet : generate_naics.DataFrame) r,
       r ∈ FACILITY_CATEGORIES (generate_naics.run gsheet)
       ∨ r ∈ FACILITY_TYPES (generate_naics.run gsheet) ->
       Py.take 2 (code r) ∈ generate_naics.eligible_sectors).
Proof.
  split_and!.
  - intros sheet r [Hr|Hr]; simpl in Hr.
    + eapply sectors_allow_listed;
        [apply clean_step_eq|apply clean_sectors_Permutation|exact Hr].
    + eapply sectors_allow_listed; [apply extract_step_eq|done|exact Hr].
  - intros sheet r [Hr|[Hr|[Hr|Hr]]]; simpl in Hr.
    + apply list_elem_of_fmap in Hr as (e & -> & He).
      apply elem_of_sort, list_elem_of_fmap in He as (row & -> & Hrow).
      by apply kept_row_code in Hrow as [_ ?].
    + apply list_elem_of_fmap in Hr as (e & -> & He).
      apply elem_of_sort, list_elem_of_fmap in He as (row & -> & Hrow).
      by apply kept_row_code in Hrow as [_ ?].
    + apply list_elem_of_fmap in Hr as (row & -> & Hrow).
      by apply kept_row_code in Hrow as [_ ?].
    + apply list_elem_of_fmap in Hr as (row & -> & Hrow).
      by apply kept_row_code in Hrow as [_ ?].
  - intros gsheet r (k & titles & Hk & _ & ->)%elem_of_emit_sectors. done.
  - intros gsheet r [Hr|Hr]; simpl in Hr;
      apply elem_of_emit_rows in Hr as (row & _ & [_ Hel]%eligible_true & ->);
      done.
Qed.

Lemma only_allow_listed_witness :
  code (mkNAICSCode "31-33" "Manufacturing" 2 "") ∈ combined_sector_codes.
Proof.
  apply (proj1 only_allow_listed sample_sheet). left.
  vm_compute. repeat constructor.
Defined.

(** X10: the shape of the records.  A sector record has level 2 and an
    empty parent, a category record level 3, a facility-type record level
    6.  In clean_naics.py and extract_naics.py a category code has three
    characters and a facility-type code six; generate_naics.py, which
    selects by the level column, only ensures at least two characters. *)
Theorem record_shapes :
  (∀ (sheet : Sheet2022.DataFrame) tb,
     tb = clean_naics.run sheet ∨ tb = extract_naics.run sheet ->
     Forall (λ r, level r = 2%Z ∧ parent r = "") (FACILITY_SECTORS tb)
     ∧ Forall (λ r, level r = 3%Z ∧ Py.len (code r) = 3%nat)
         (FACILITY_CATEGORIES tb)
     ∧ Forall (λ r, level r = 6%Z ∧ Py.len (code r) = 6%nat
                    ∧ Py.len (parent r) = 3%nat)
         (FACILITY_TYPES tb))
  ∧ (∀ gsheet : generate_naics.DataFrame,
       Forall (λ r, level r = 2%Z ∧ parent r = "")
         (FACILITY_SECTORS (generate_naics.run gsheet))
       ∧ Forall (λ r, level r = 3%Z ∧ (2 <= Py.len (code r))%nat
                      ∧ Py.len (parent r) = 2%nat)
           (FACILITY_CATEGORIES (generate_naics.run gsheet))
       ∧ Forall (λ r, level r = 6%Z ∧ (2 <= Py.len (code r))%nat)
           (FACILITY_TYPES (generate_naics.run gsheet))).
Proof.
  split.
  - intros sheet tb [->| ->]; simpl; split_and!; apply Forall_forall; intros r Hr.
    + by apply list_elem_of_fmap in Hr as (r' & -> & _).
    + apply list_elem_of_fmap in Hr as (e & -> & He).
      apply elem_of_sort, list_elem_of_fmap in He as (row & -> & Hrow).
      by apply kept_row_code in Hrow as [? _].
    + apply list_elem_of_fmap in Hr as (e & -> & He).
      apply elem_of_sort, list_elem_of_fmap in He as (row & -> & Hrow).
      apply kept_row_code in Hrow as [Hlen _]. simpl.
      rewrite len_take, Hlen. done.
    + by apply list_elem_of_fmap in Hr as (r' & -> & _).
    + apply list_elem_of_fmap in Hr as (row & -> & Hrow).
      by apply kept_row_code in Hrow as [? _].
    + apply list_elem_of_fmap in Hr as (row & -> & Hrow).
      apply kept_row_code in Hrow as [Hlen _]. simpl.
      rewrite len_take, Hlen. done.
  - intros gsheet. simpl. split_and!; apply Forall_forall; intros r Hr.
    + by apply elem_of_emit_sectors in Hr as (k & titles & _ & _ & ->).
    + apply elem_of_emit_rows in Hr as (row & _ & [Hlen _]%eligible_true & ->).
      simpl. rewrite len_take. split_and!; [done|done|lia].
    + by apply elem_of_emit_rows
        in Hr as (row & _ & [Hlen _]%eligible_true & ->).
Qed.

Lemma record_shapes_witness :
  Forall (λ r, level r = 3%Z ∧ Py.len (code r) = 3%nat)
    (FACILITY_CATEGORIES (clean_naics.run sample_sheet)).
Proof.
  exact (proj1 (proj2 (proj1 record_shapes sample_sheet
                         (clean_naics.run sample_sheet) (or_introl eq_refl)))).
Defined.

(** ** The sector table of generate_naics.py *)

Section FixedSectors.
Import generate_naics.

Lemma sector_title_fixed k titles :
  k ∈ eligible_sectors -> sector_title k titles = sector_title k [].
Proof.
  unfold eligible_sectors. rewrite !elem_of_cons, elem_of_nil.
  intros [->|[->|[->|[->|[->|[->|[->|[->|[->|[]]]]]]]]]]; reflexivity.
Qed.

Lemma fixed_sectors_eq :
  fixed_sectors
  = (λ k, mkNAICSCode k (escape (sector_title k [])) 2 "") <$> eligible_sectors.
Proof. reflexivity. Qed.

Lemma emit_sectors_sublist (df : DataFrame) :
  emit_sectors df `sublist_of` fixed_sectors.
Proof.
  rewrite fixed_sectors_eq. unfold emit_sectors, consolidated_sectors.
  assert (Forall (λ k, k ∈ eligible_sectors) eligible_sectors) as Hall
    by (by apply Forall_forall).
  induction Hall as [|k l Hk _ IH]; simpl; [done|].
  destruct (sector_groups df !! k) as [titles|]; simpl.
  - rewrite (sector_title_fixed k titles Hk). by apply sublist_skip.
  - by apply sublist_cons.
Qed.

Lemma group_titles_cons k row (rows : DataFrame) :
  group_titles k (row :: rows)
  = if decide (Py.take 2 (Pd.str (Code row)) = k)
    then Pd.str (Class_title row) :: group_titles k rows
    else group_titles k rows.
Proof. unfold group_titles. rewrite filter_cons. by case_decide. Qed.

Lemma group_step_lookup groups row k :
  group_step groups row !! k
  = if decide (Py.take 2 (Pd.str (Code row)) = k ∧ k ∈ eligible_sectors)
    then Some (default [] (groups !! k) ++ [Pd.str (Class_title row)])
    else groups !! k.
Proof.
  unfold group_step.
  destruct (decide (Py.take 2 (Pd.str (Code row)) ∈ eligible_sectors))
    as [Hel|Hel].
  - destruct (decide (Py.take 2 (Pd.str (Code row)) = k)) as [Hk|Hk].
    + rewrite (decide_True (P := _ ∧ _)) by (by subst k). rewrite Hk.
      rewrite lookup_alter_eq.
      destruct (decide (groups !! k = None)) as [Hnew|Hnew].
      * by rewrite lookup_insert_eq, Hnew.
      * by destruct (groups !! k).
    + rewrite (decide_False (P := _ ∧ _)) by (by intros [? _]).
      rewrite lookup_alter_ne by done.
      destruct (decide (groups !! _ = None)); [by rewrite lookup_insert_ne|done].
  - rewrite decide_False; [done|]. intros [<- ?]. done.
Qed.

Lemma foldl_group_step_lookup groups (rows : DataFrame) k :
  k ∈ eligible_sectors ->
  foldl group_step groups rows !! k
  = match groups !! k with
    | Some titles => Some (titles ++ group_titles k rows)
    | None => match group_titles k rows with
              | [] => None
              | titles => Some titles
              end
    end.
Proof.
  intros Hk. revert groups.
  induction rows as [|row rows IH]; intros groups.
  - simpl. destruct (groups !! k); [|done]. by rewrite app_nil_r.
  - cbn [foldl]. rewrite IH, group_step_lookup, group_titles_cons.
    destruct (decide (Py.take 2 (Pd.str (Code row)) = k)) as [Hrow|Hrow].
    + rewrite decide_True by done.
      destruct (groups !! k); simpl; [by rewrite <- app_assoc|done].
    + rewrite decide_False by (by intros [? _]). done.
Qed.

Lemma foldl_group_step_other groups (rows : DataFrame) k :
  k ∉ eligible_sectors -> foldl group_step groups rows !! k = groups !! k.
Proof.
  intros Hk. revert groups.
  induction rows as [|row rows IH]; intros groups; [done|].
  cbn [foldl]. rewrite IH, group_step_lookup.
  by rewrite decide_False by (by intros [_ ?]).
Qed.
End FixedSectors.

(** X11: the sector table of generate_naics.py is cut out of a fixed
    table: its records are records of the nine hard-coded ones, in their
    order and without repetition, whatever titles the sheet gives; a fixed
    record is written exactly when the code of some level-2 row starts
    with its code. *)
Theorem generate_sectors_fixed (gsheet : generate_naics.DataFrame) :
  FACILITY_SECTORS (generate_naics.run gsheet) `sublist_of` fixed_sectors
  ∧ NoDup (code <$> FACILITY_SECTORS (generate_naics.run gsheet))
  ∧ ∀ r, r ∈ fixed_sectors ->
      (r ∈ FACILITY_SECTORS (generate_naics.run gsheet)
       ↔ Exists (λ row, generate_naics.Level row = Some 2%Z
                        ∧ Py.take 2 (Pd.str (generate_naics.Code row)) = code r)
           (generate_naics.load gsheet)).
Proof.
  simpl. split_and!.
  - apply emit_sectors_sublist.
  - eapply sublist_NoDup; [|apply fmap_sublist, emit_sectors_sublist].
    compute_done.
  - intros r Hr. rewrite fixed_sectors_eq in Hr.
    apply list_elem_of_fmap in Hr as (k & -> & Hk). simpl.
    rewrite elem_of_emit_sectors. split.
    + intros (k' & titles & Hk' & Hsome & [= -> _]).
      by apply sector_groups_is_Some.
    + intros Hrows.
      destruct (proj2 (sector_groups_is_Some (generate_naics.load gsheet) k))
        as [titles Hsome]; [done|].
      exists k, titles. split_and!; [done..|].
      by rewrite (sector_title_fixed k titles).
Qed.

Lemma generate_sectors_fixed_witness :
  mkNAICSCode "11" "Agriculture, forestry, fishing and hunting" 2 ""
    ∈ FACILITY_SECTORS (generate_naics.run sample_level_sheet).
Proof.
  apply (proj2 (proj2 (generate_sectors_fixed sample_level_sheet))).
  - vm_compute. repeat constructor.
  - compute_done.
Defined.

(** X12: the dictionary of sector groups.  Under an allow-listed key it
    holds the titles of the level-2 rows whose code starts with the key,
    in the order of the rows, and the key is missing when there is no such
    row; no other key is ever present.  So every list it holds is
    non-empty. *)
Theorem sector_groups_lookup (df : generate_naics.DataFrame) k :
  (k ∈ generate_naics.eligible_sectors ->
   generate_naics.sector_groups df !! k
   = match group_titles k (generate_naics.sectors_df df) with
     | [] => None
     | titles => Some titles
     end)
  ∧ (k ∉ generate_naics.eligible_sectors ->
     generate_naics.sector_groups df !! k = None)
  ∧ (∀ titles, generate_naics.sector_groups df !! k = Some titles ->
       titles ≠ []).
Proof.
  unfold generate_naics.sector_groups.
  assert (k ∈ generate_naics.eligible_sectors ->
          foldl generate_naics.group_step ∅ (generate_naics.sectors_df df) !! k
          = match group_titles k (generate_naics.sectors_df df) with
            | [] => None
            | titles => Some titles
            end) as Hin.
  { intros Hk. by rewrite foldl_group_step_lookup, lookup_empty. }
  assert (k ∉ generate_naics.eligible_sectors ->
          foldl generate_naics.group_step ∅ (generate_naics.sectors_df df) !! k
          = None) as Hout.
  { intros Hk. by rewrite foldl_group_step_other, lookup_empty. }
  split_and!; [done..|].
  intros titles Hsome.
  destruct (decide (k ∈ generate_naics.eligible_sectors)) as [Hk|Hk].
  - rewrite (Hin Hk) in Hsome.
    destruct (group_titles k (generate_naics.sectors_df df)); [done|].
    by injection Hsome as <-.
  - by rewrite (Hout Hk) in Hsome.
Qed.

Lemma sector_groups_lookup_witness :
  generate_naics.sector_groups (generate_naics.load sample_level_sheet) !! "31"
  = Some ["Manufacturing"]
  ∧ generate_naics.sector_groups (generate_naics.load sample_level_sheet) !! "52"
    = None.
Proof.
  split.
  - apply (proj1 (sector_groups_lookup
                    (generate_naics.load sample_level_sheet) "31")).
    compute_done.
  - apply (proj1 (proj2 (sector_groups_lookup
                           (generate_naics.load sample_level_sheet) "52"))).
    compute_done.
Defined.

(** ** clean_naics.py against extract_naics.py *)

Lemma loops_same_codes rows st1 st2 :
  code <$> st1.1 = code <$> st2.1 -> st1.2 = st2.2 ->
  code <$> (foldl clean_naics.sectors_step st1 rows).1
  = code <$> (foldl extract_naics.sectors_step st2 rows).1.
Proof.
  revert st1 st2.
  induction rows as [|row rows IH]; intros [l1 b1] [l2 b2] H1 H2; [done|].
  simpl in H1, H2. subst b2. cbn [foldl].
  apply IH; rewrite clean_step_eq, extract_step_eq;
    destruct (decide (Pd.str (Sheet2022.NAICS_Code row)
                      ∈ Sheet2022.manufacturing));
    destruct b1; simpl; rewrite ?fmap_app, ?H1; done.
Qed.

(** X13: clean_naics.py and extract_naics.py write the same records up
    to the titles and the order: the same sector codes, and the same pairs
    of code and parent in the category table and in the facility-type
    table, each as many times. *)
Theorem clean_reorders_extract (sheet : Sheet2022.DataFrame) :
  code <$> FACILITY_SECTORS (clean_naics.run sheet)
  ≡ₚ code <$> FACILITY_SECTORS (extract_naics.run sheet)
  ∧ (λ r, (code r, parent r)) <$> FACILITY_CATEGORIES (clean_naics.run sheet)
    ≡ₚ (λ r, (code r, parent r)) <$> FACILITY_CATEGORIES (extract_naics.run sheet)
  ∧ (λ r, (code r, parent r)) <$> FACILITY_TYPES (clean_naics.run sheet)
    ≡ₚ (λ r, (code r, parent r)) <$> FACILITY_TYPES (extract_naics.run sheet).
Proof.
  simpl. split_and!.
  - unfold clean_naics.emit_sectors, clean_naics.sectors_list,
      extract_naics.emit_sectors, extract_naics.sectors_list,
      clean_naics.sectors_unsorted.
    rewrite sort_Permutation, <- !list_fmap_compose.
    change (code <$> (foldl clean_naics.sectors_step ([], false)
                        (Sheet2022.sectors_raw (Sheet2022.load sheet))).1
            ≡ₚ code <$> (foldl extract_naics.sectors_step ([], false)
                           (Sheet2022.sectors_raw (Sheet2022.load sheet))).1).
    by rewrite (loops_same_codes _ ([], false) ([], false)).
  - unfold clean_naics.emit_categories, clean_naics.categories_list,
      extract_naics.emit_categories.
    rewrite sort_Permutation, <- !list_fmap_compose. done.
  - unfold clean_naics.emit_facility_types, clean_naics.facility_types_list,
      extract_naics.emit_facility_types.
    rewrite sort_Permutation, <- !list_fmap_compose. done.
Qed.

(** ** The printed counts *)

Lemma count_from n (rows : generate_naics.DataFrame) :
  foldl (λ count row,
           if generate_naics.eligible (Pd.str (generate_naics.Code row))
           then S count else count) n rows
  = (n + length (omap (generate_naics.emit_row 6 3) rows))%nat.
Proof.
  revert n. induction rows as [|row rows IH]; intros n; [simpl; lia|].
  cbn [foldl omap list_omap]. rewrite IH.
  unfold generate_naics.emit_row at 2.
  destruct (generate_naics.eligible (Pd.str (generate_naics.Code row)));
    cbn [length]; lia.
Qed.

(** X14: the counts a script prints are the sizes of the tables it
    writes: the three numbers of the line of clean_naics.py and
    extract_naics.py, and the number of facility types that
    generate_naics.py reports. *)
Theorem printed_counts :
  (∀ sheet : Sheet2022.DataFrame,
     Console.clean_found (Sheet2022.load sheet)
     = "Found "
       +:+ pretty (length (FACILITY_SECTORS (clean_naics.run sheet)))
       +:+ " sectors, "
       +:+ pretty (length (FACILITY_CATEGORIES (clean_naics.run sheet)))
       +:+ " categories, "
       +:+ pretty (length (FACILITY_TYPES (clean_naics.run sheet)))
       +:+ " facility types"
     ∧ Console.extract_found (Sheet2022.load sheet)
       = "Found "
         +:+ pretty (length (FACILITY_SECTORS (extract_naics.run sheet)))
         +:+ " sectors, "
         +:+ pretty (length (FACILITY_CATEGORIES (extract_naics.run sheet)))
         +:+ " categories, "
         +:+ pretty (length (FACILITY_TYPES (extract_naics.run sheet)))
         +:+ " facility types")
  ∧ (∀ gsheet : generate_naics.DataFrame,
       Console.generate_added (generate_naics.load gsheet)
       = "Added "
         +:+ pretty (length (FACILITY_TYPES (generate_naics.run gsheet)))
         +:+ " facility types").
Proof.
  split.
  - intros sheet. simpl. split.
    + unfold Console.clean_found, clean_naics.emit_sectors,
        clean_naics.emit_categories, clean_naics.emit_facility_types,
        clean_naics.categories_list, clean_naics.facility_types_list.
      rewrite !length_fmap.
      rewrite !(Permutation_length (sort_Permutation _ _)), !length_fmap.
      done.
    + unfold Console.extract_found, extract_naics.emit_sectors,
        extract_naics.emit_categories, extract_naics.emit_facility_types.
      by rewrite !length_fmap.
  - intros gsheet. simpl.
    unfold Console.generate_added, Console.count,
      generate_naics.emit_facility_types.
    by rewrite count_from.
Qed.

(** ** The place of the Manufacturing record *)

Section LoopFrom.
Import Sheet2022.

Variable step : list NAICSCode * bool -> Row -> list NAICSCode * bool.
Variable title_of : Row -> string.
Hypothesis step_eq : ∀ st row,
  step st row =
  if decide (Pd.str (NAICS_Code row) ∈ manufacturing) then
    if negb st.2 then (st.1 ++ [manufacturing_record], true) else st
  else (st.1 ++ [mkNAICSCode (Pd.str (NAICS_Code row)) (title_of row) 2 ""],
        st.2).

Local Abbreviation record :=
  (λ row, mkNAICSCode (Pd.str (NAICS_Code row)) (title_of row) 2 "").
Local Abbreviation ordinary :=
  (λ row : Row, Pd.str (NAICS_Code row) ∉ manufacturing).

Lemma loop_from_ordinary acc flag rows :
  Forall ordinary rows ->
  foldl step (acc, flag) rows = (acc ++ (record <$> rows), flag).
Proof.
  revert acc. induction rows as [|row rows IH]; intros acc Hrows.
  - simpl. by rewrite app_nil_r.
  - apply Forall_cons in Hrows as [Hrow Hrows]. cbn [foldl].
    rewrite step_eq, decide_False by done. simpl.
    rewrite IH by done. by rewrite <- app_assoc.
Qed.

Lemma loop_from_found acc rows :
  foldl step (acc, true) rows
  = (acc ++ (record <$> filter ordinary rows), true).
Proof.
  revert acc. induction rows as [|row rows IH]; intros acc.
  - simpl. by rewrite app_nil_r.
  - cbn [foldl]. rewrite step_eq, filter_cons.
    destruct (decide (Pd.str (NAICS_Code row) ∈ manufacturing)) as [Hm|Hm].
    + rewrite decide_False by (by intros ?). simpl. apply IH.
    + rewrite decide_True by done. simpl.
      rewrite IH. by rewrite <- app_assoc.
Qed.

Lemma loop_first_manufacturing before row after :
  Forall ordinary before ->
  Pd.str (NAICS_Code row) ∈ manufacturing ->
  (foldl step ([], false) (before ++ row :: after)).1
  = (record <$> before)
    ++ manufacturing_record :: (record <$> filter ordinary after).
Proof.
  intros Hbefore Hrow.
  rewrite foldl_app, loop_from_ordinary by done. cbn [foldl].
  rewrite step_eq, decide_True by done. simpl.
  rewrite loop_from_found. simpl. by rewrite <- app_assoc.
Qed.
End LoopFrom.

(** X15: in extract_naics.py the Manufacturing record stands where the
    first row with code 31, 32 or 33 stood: the sector rows in front of it
    give their records in order, the later rows give theirs with the
    further manufacturing rows left out.  clean_naics.py builds the same
    list, with cleaned titles, before it sorts.  Without any manufacturing
    row each sector row gives one record. *)
Theorem manufacturing_takes_first_place
    (sheet before after : Sheet2022.DataFrame) (row : Sheet2022.Row) :
  Sheet2022.sectors_raw (Sheet2022.load sheet) = before ++ row :: after ->
  Forall (λ r, Pd.str (Sheet2022.NAICS_Code r) ∉ Sheet2022.manufacturing)
    before ->
  Pd.str (Sheet2022.NAICS_Code row) ∈ Sheet2022.manufacturing ->
  FACILITY_SECTORS (extract_naics.run sheet)
  = ((λ r, mkNAICSCode (Pd.str (Sheet2022.NAICS_Code r))
             (escape (Pd.str (Sheet2022.NAICS_Title r))) 2 "") <$> before)
    ++ manufacturing_record
    :: ((λ r, mkNAICSCode (Pd.str (Sheet2022.NAICS_Code r))
                (escape (Pd.str (Sheet2022.NAICS_Title r))) 2 "")
        <$> filter (λ r, Pd.str (Sheet2022.NAICS_Code r)
                         ∉ Sheet2022.manufacturing) after)
  ∧ clean_naics.sectors_unsorted (Sheet2022.load sheet)
    = ((λ r, mkNAICSCode (Pd.str (Sheet2022.NAICS_Code r))
               (clean_title (Pd.str (Sheet2022.NAICS_Title r))) 2 "")
       <$> before)
      ++ manufacturing_record
      :: ((λ r, mkNAICSCode (Pd.str (Sheet2022.NAICS_Code r))
                  (clean_title (Pd.str (Sheet2022.NAICS_Title r))) 2 "")
          <$> filter (λ r, Pd.str (Sheet2022.NAICS_Code r)
                           ∉ Sheet2022.manufacturing) after).
Proof.
  intros Hraw Hbefore Hrow. split.
  - simpl. unfold extract_naics.emit_sectors, extract_naics.sectors_list.
    rewrite Hraw.
    rewrite (loop_first_manufacturing _ _ extract_step_eq) by done.
    rewrite fmap_app, fmap_cons, <- !list_fmap_compose. done.
  - unfold clean_naics.sectors_unsorted. rewrite Hraw.
    by rewrite (loop_first_manufacturing _ _ clean_step_eq).
Qed.

Lemma manufacturing_takes_first_place_witness :
  code <$> FACILITY_SECTORS (extract_naics.run sample_sheet) = ["11"; "31-33"].
Proof.
  pose proof (manufacturing_takes_first_place sample_sheet
                [sample_row "11" "Agriculture, Forestry, Fishing and Hunting T"]
                [sample_row "32" "Manufacturing"]
                (sample_row "31" "Manufacturing")) as H.
  destruct H as [H _].
  - reflexivity.
  - repeat constructor. compute_done.
  - compute_done.
  - rewrite H. reflexivity.
Defined.

(** ** Stability of the sort of clean_naics.py *)

Section Stable.
Context {A : Type} (key : A -> string).

Lemma ltb_irrefl_key x y : String.ltb (key y) (key x) = true -> key y ≠ key x.
Proof.
  unfold String.ltb. intros H Heq. rewrite Heq in H.
  pose proof (String.compare_antisym (key x) (key x)) as Hanti.
  by destruct (String.compare (key x) (key x)).
Qed.

Lemma insert_sorted_filter t x l :
  filter (λ y, key y = t) (Py.insert_sorted key x l)
  = filter (λ y, key y = t) (x :: l).
Proof.
  induction l as [|y l IH]; [done|]. simpl.
  destruct (String.ltb (key y) (key x)) eqn:E; [|done].
  apply ltb_irrefl_key in E.
  rewrite (filter_cons _ y), IH, !(filter_cons _ x), !(filter_cons _ y).
  repeat case_decide; congruence.
Qed.

Lemma sort_filter t l :
  filter (λ y, key y = t) (Py.sort key l) = filter (λ y, key y = t) l.
Proof.
  induction l as [|x l IH]; [done|]. simpl.
  by rewrite insert_sorted_filter, !filter_cons, IH.
Qed.
End Stable.

Lemma filter_fmap_title (f : clean_naics.Entry -> NAICSCode) t
    (l : list clean_naics.Entry) :
  (∀ e, title (f e) = clean_naics.entry_title e) ->
  filter (λ r, title r = t) (f <$> l)
  = f <$> filter (λ e, clean_naics.entry_title e = t) l.
Proof.
  intros Hf. induction l as [|e l IH]; [done|].
  rewrite fmap_cons, !filter_cons, IH, Hf. by case_decide.
Qed.

(** X16: the sort of clean_naics.py is stable: among the category
    records, and among the facility-type records, those that bear one and
    the same title stand in the order of their rows in the sheet. *)
Theorem equal_titles_keep_row_order (sheet : Sheet2022.DataFrame) t :
  filter (λ r, title r = t) (FACILITY_CATEGORIES (clean_naics.run sheet))
  = filter (λ r, title r = t)
      ((λ row, mkNAICSCode (Pd.str (Sheet2022.NAICS_Code row))
                 (escape (clean_title (Pd.str (Sheet2022.NAICS_Title row)))) 3
                 (Sheet2022.category_parent (Pd.str (Sheet2022.NAICS_Code row))))
       <$> Sheet2022.categories (Sheet2022.load sheet))
  ∧ filter (λ r, title r = t) (FACILITY_TYPES (clean_naics.run sheet))
    = filter (λ r, title r = t)
        ((λ row, mkNAICSCode (Pd.str (Sheet2022.NAICS_Code row))
                   (escape (clean_title (Pd.str (Sheet2022.NAICS_Title row)))) 6
                   (Py.take 3 (Pd.str (Sheet2022.NAICS_Code row))))
         <$> Sheet2022.facility_types (Sheet2022.load sheet)).
Proof.
  simpl. unfold clean_naics.emit_categories, clean_naics.categories_list,
    clean_naics.emit_facility_types, clean_naics.facility_types_list.
  split.
  - rewrite filter_fmap_title, sort_filter, <- filter_fmap_title by done.
    by rewrite <- list_fmap_compose.
  - rewrite filter_fmap_title, sort_filter, <- filter_fmap_title by done.
    by rewrite <- list_fmap_compose.
Qed.
